(** * Scrape-CryptoTweets: a shallow embedding of [tweet_scrape.py]

    The development follows the layout of the Python module: the calendar
    arithmetic behind [datetime] and [timedelta], the [TweetScraper] object
    with [query_string] and [date_rng], the page scraper
    ([scrape_visible_data], [scrape_full_page]) over an abstract browser,
    [export_csv] over a small file system, and the day loop of
    [run_scraper].  Theorems come after the definitions. *)

From Stdlib Require Import ZArith Lia Ascii String.
From stdpp Require Import base tactics option list strings pretty gmap sets.

Local Open Scope Z_scope.

(** ** Text helpers *)

Module Text.

(** [str.join]. *)
Fixpoint join (sep : string) (parts : list string) : string :=
  match parts with
  | [] => ""
  | [p] => p
  | p :: rest => p +:+ sep +:+ join sep rest
  end.

(** Is [p] a prefix of [s]? *)
Fixpoint starts_with (p s : string) : bool :=
  match p, s with
  | EmptyString, _ => true
  | String a p', String b s' => if Ascii.eqb a b then starts_with p' s' else false
  | String _ _, EmptyString => false
  end.


(** [str.lower], on the ASCII range. *)
Definition lower_ascii (c : ascii) : ascii :=
  let n := nat_of_ascii c in
  if ((65 <=? n) && (n <=? 90))%nat then ascii_of_nat (n + 32) else c.

Fixpoint lower (s : string) : string :=
  match s with
  | EmptyString => EmptyString
  | String c s' => String (lower_ascii c) (lower s')
  end.

(** [str(n)] of a Python int: decimal digits, with a minus sign below zero. *)
Definition of_int (n : Z) : string := pretty n.

(** The [%04d] and [%02d] conversions of [strftime]: zero fill on the left. *)
Fixpoint zeros (k : nat) : string :=
  match k with
  | O => ""
  | S k' => String "0" (zeros k')
  end.

Definition zfill (width : nat) (n : Z) : string :=
  let s := of_int n in
  zeros (width - String.length s) +:+ s.

Definition is_digit (c : ascii) : bool :=
  let n := nat_of_ascii c in ((48 <=? n) && (n <=? 57))%nat.



End Text.

(** ** The calendar of [datetime]

    [datetime.strptime(s, "%Y-%m-%d")] yields a datetime at midnight, so a
    value is its proleptic Gregorian year, month and day.  Addition of a
    [timedelta] and subtraction of two datetimes go through the day ordinal,
    with the arithmetic of the interpreter's [datetime] module
    ([_ymd2ord], [_ord2ymd]). *)

Module Calendar.

Record datetime : Type := mk_datetime { year : Z; month : Z; day : Z }.

Global Instance datetime_eq_dec : EqDecision datetime.
Proof. solve_decision. Defined.

Definition MINYEAR : Z := 1.
Definition MAXYEAR : Z := 9999.
Definition MAXORDINAL : Z := 3652059.

(** [_DAYS_IN_MONTH], with the placeholder at index 0. *)
Definition DAYS_IN_MONTH : list Z :=
  [-1; 31; 28; 31; 30; 31; 30; 31; 31; 30; 31; 30; 31].

(** [_DAYS_BEFORE_MONTH]. *)
Definition DAYS_BEFORE_MONTH : list Z :=
  [-1; 0; 31; 59; 90; 120; 151; 181; 212; 243; 273; 304; 334].

Definition table (t : list Z) (m : Z) : Z := nth (Z.to_nat m) t 0.

Definition is_leap (y : Z) : bool :=
  (y mod 4 =? 0) && (negb (y mod 100 =? 0) || (y mod 400 =? 0)).

Definition days_before_year (y : Z) : Z :=
  let y' := y - 1 in y' * 365 + y' / 4 - y' / 100 + y' / 400.

Definition days_in_month (y m : Z) : Z :=
  if (m =? 2) && is_leap y then 29 else table DAYS_IN_MONTH m.

Definition days_before_month (y m : Z) : Z :=
  table DAYS_BEFORE_MONTH m + (if (2 <? m) && is_leap y then 1 else 0).

Definition ymd2ord (y m d : Z) : Z :=
  days_before_year y + days_before_month y m + d.

Definition DI400Y : Z := Eval cbv in days_before_year 401.
Definition DI100Y : Z := Eval cbv in days_before_year 101.
Definition DI4Y : Z := Eval cbv in days_before_year 5.

Definition ord2ymd (n0 : Z) : datetime :=
  let n := n0 - 1 in
  let n400 := n / DI400Y in
  let n := n mod DI400Y in
  let y := n400 * 400 + 1 in
  let n100 := n / DI100Y in
  let n := n mod DI100Y in
  let n4 := n / DI4Y in
  let n := n mod DI4Y in
  let n1 := n / 365 in
  let n := n mod 365 in
  let y := y + (n100 * 100 + n4 * 4 + n1) in
  if (n1 =? 4) || (n100 =? 4) then mk_datetime (y - 1) 12 31
  else
    let leapyear := (n1 =? 3) && (negb (n4 =? 24) || (n100 =? 3)) in
    let m := Z.shiftr (n + 50) 5 in
    let preceding :=
      table DAYS_BEFORE_MONTH m + (if (2 <? m) && leapyear then 1 else 0) in
    if n <? preceding then
      let m' := m - 1 in
      let preceding' :=
        preceding
        - (table DAYS_IN_MONTH m' + (if (m' =? 2) && leapyear then 1 else 0)) in
      mk_datetime y m' (n - preceding' + 1)
    else mk_datetime y m (n - preceding + 1).

(** The range check of the [datetime] constructor. *)
Definition valid (d : datetime) : Prop :=
  MINYEAR <= year d <= MAXYEAR /\ 1 <= month d <= 12 /\
  1 <= day d <= days_in_month (year d) (month d).

Definition validb (d : datetime) : bool :=
  (MINYEAR <=? year d) && (year d <=? MAXYEAR) &&
  (1 <=? month d) && (month d <=? 12) &&
  (1 <=? day d) && (day d <=? days_in_month (year d) (month d)).

Definition toordinal (d : datetime) : Z := ymd2ord (year d) (month d) (day d).

(** [(e - s).days]: both operands are at midnight. *)
Definition sub_days (e s : datetime) : Z := toordinal e - toordinal s.

(** [d + timedelta(days=i)]; [None] is Python's [OverflowError]. *)
Definition add_days (d : datetime) (i : Z) : option datetime :=
  let n := toordinal d + i in
  if (0 <? n) && (n <=? MAXORDINAL) then Some (ord2ymd n) else None.

(** [d.strftime("%Y-%m-%d")], years zero filled to four digits as the
    library documents. *)
Definition strftime (d : datetime) : string :=
  Text.zfill 4 (year d) +:+ "-" +:+ Text.zfill 2 (month d) +:+ "-" +:+
  Text.zfill 2 (day d).

(** Comparison of datetimes: lexicographic on (year, month, day). *)
Definition le (a b : datetime) : Prop :=
  year a < year b \/
  (year a = year b /\ (month a < month b \/ (month a = month b /\ day a <= day b))).

(** The calendar successor, read off the calendar and not the ordinal. *)
Definition tomorrow (d : datetime) : datetime :=
  if day d <? days_in_month (year d) (month d)
  then mk_datetime (year d) (month d) (day d + 1)
  else if month d <? 12 then mk_datetime (year d) (month d + 1) 1
  else mk_datetime (year d + 1) 1 1.





End Calendar.

(** ** Exceptions and the effect monad

    A Python exception is a value of [exn]; [isinstance] is the subclass
    test the [except] clauses perform.  A computation over a state [S]
    either returns a value or raises, and keeps the state reached in both
    cases; [None] is reserved for a loop that used up its fuel. *)

Module Py.

Inductive exn : Type :=
| ValueError (msg : string)
| OverflowError (msg : string)
| IndexError (msg : string)
| AssertionError (msg : string)
| Exception (msg : string)
| TimeoutException (msg : string)
| WebDriverException (msg : string)
| KeyboardInterrupt.

Global Instance exn_eq_dec : EqDecision exn.
Proof. solve_decision. Defined.

(** The classes named by the [except] clauses of [run_scraper].  In
    selenium [TimeoutException] derives from [WebDriverException], and
    every class but [KeyboardInterrupt] derives from [Exception]. *)
Inductive pyclass : Type := CTimeoutException | CWebDriverException | CException.

Definition isinstance (e : exn) (c : pyclass) : bool :=
  match c, e with
  | CTimeoutException, TimeoutException _ => true
  | CTimeoutException, _ => false
  | CWebDriverException, (TimeoutException _ | WebDriverException _) => true
  | CWebDriverException, _ => false
  | CException, KeyboardInterrupt => false
  | CException, _ => true
  end.

(** [str(err)]. *)
Definition str_exn (e : exn) : string :=
  match e with
  | ValueError m | OverflowError m | IndexError m | AssertionError m
  | Exception m => m
  | TimeoutException m | WebDriverException m => "Message: " +:+ m
  | KeyboardInterrupt => ""
  end.

Inductive result (A : Type) : Type :=
| Ok (a : A)
| Raise (e : exn).
Global Arguments Ok {A} a.
Global Arguments Raise {A} e.

Definition M (S A : Type) : Type := S -> option (result A * S).

Definition ret {S A} (a : A) : M S A := fun s => Some (Ok a, s).

Definition bind {S A B} (m : M S A) (k : A -> M S B) : M S B :=
  fun s =>
    match m s with
    | None => None
    | Some (Raise e, s') => Some (Raise e, s')
    | Some (Ok a, s') => k a s'
    end.

Definition raise {S A} (e : exn) : M S A := fun s => Some (Raise e, s).

Definition out_of_fuel {S A} : M S A := fun _ => None.

Definition get {S} : M S S := fun s => Some (Ok s, s).

Definition modify {S} (f : S -> S) : M S unit := fun s => Some (Ok tt, f s).

(** A [try] block: the outcome becomes a value for the handlers. *)
Definition try {S A} (m : M S A) : M S (result A) :=
  fun s =>
    match m s with
    | None => None
    | Some (r, s') => Some (Ok r, s')
    end.

(** Run a computation on a component of the state. *)
Definition zoom {S T A} (proj : S -> T) (upd : T -> S -> S) (m : M T A) : M S A :=
  fun s =>
    match m (proj s) with
    | None => None
    | Some (r, t') => Some (r, upd t' s)
    end.

(** The [assert] statement. *)
Definition assert {S} (b : bool) (msg : string) : M S unit :=
  if b then ret tt else raise (AssertionError msg).

(** [len] of a list and of a set. *)
Definition len {A} (l : list A) : Z := Z.of_nat (length l).

End Py.

Import Py.

Declare Scope py_scope.
Delimit Scope py_scope with py.
Notation "'do' x <- c ; k" := (bind c (fun x => k))
  (at level 10, x name, c at level 100, k at level 200) : py_scope.
Notation "'do' ' p <- c ; k" := (bind c (fun x => match x with p => k end))
  (at level 10, p pattern, c at level 100, k at level 200) : py_scope.
Notation "'run' c ; k" := (bind c (fun _ => k))
  (at level 10, c at level 100, k at level 200) : py_scope.
Local Open Scope py_scope.

(** ** The [TweetScraper] object, [query_string] and [date_rng] *)

Module Scraper.

Import Calendar.

Record TweetScraper : Type := mk_TweetScraper {
  chromedriver_path : string;
  date_start : datetime;
  date_end : datetime;
  coin_name : string;
  coin_abbrv : string;
  min_faves : Z;
  min_retweets : Z;
  min_replies : Z;
  page : string;
  language : string
}.


(** [TweetScraper.query_string]. *)
Definition query_string (self : TweetScraper) (date_since date_until : string) : string :=
  "https://twitter.com/search?q=(" +:+ coin_name self
  +:+ "%20OR%20" +:+ coin_abbrv self +:+ ")"
  +:+ "%20min_replies%3A" +:+ Text.of_int (min_replies self)
  +:+ "%20min_faves%3A" +:+ Text.of_int (min_faves self)
  +:+ "%20min_retweets%3A" +:+ Text.of_int (min_retweets self)
  +:+ "%20lang%3A" +:+ language self
  +:+ "%20until%3A" +:+ date_until
  +:+ "%20since%3A" +:+ date_since
  +:+ "&src=typed_query&f=" +:+ Text.lower (page self).

(** [range(n)]. *)
Definition range (n : Z) : list Z := Z.of_nat <$> seq 0 (Z.to_nat n).

(** [TweetScraper.date_rng]; [None] is the [OverflowError] of the
    datetime addition. *)
Definition date_rng (start end_ : datetime) : option (list string) :=
  let delta := sub_days end_ start in
  mapM (fun i => strftime <$> add_days start i) (range (delta + 1)).

End Scraper.

(** ** The browser session

    The selenium driver is an interface: any type [B] of browser states with
    the calls the scraper makes.  Every call may raise and every call may
    change what the page shows next; [sleep] is the passing of time seen
    from the browser.  An element handle is the snapshot of the properties
    the scraper reads from it. *)

Module Selenium.

Record WebElement : Type := mk_WebElement {
  attr_datetime : string;       (* get_attribute("datetime") *)
  text : string;                (* .text *)
  location : Z * Z              (* .location["x"], .location["y"] *)
}.

(** A call into the browser returns or raises, and leaves a new browser
    state. *)
Definition Call (B A : Type) : Type := B -> result A * B.

Class Browser (B : Type) : Type := {
  browser_get : string -> Call B unit;
  browser_wait_for_tag : string -> Z -> Call B unit;
  browser_find_elements_by_css_selector : string -> Call B (list WebElement);
  browser_execute_script : string -> Call B unit;
  browser_sleep : Z -> B -> B;
  browser_quit : B -> B
}.

(** A driver is a browser session together with the record of the scripts
    handed to [execute_script], oldest first. *)
Record Driver (B : Type) : Type := mk_Driver {
  session : B;
  scripts : list string
}.
Global Arguments mk_Driver {B} session scripts.
Global Arguments session {B} d.
Global Arguments scripts {B} d.

Section Calls.
Context {B : Type} `{Browser B}.

Definition on_session {A} (c : Call B A) : M (Driver B) A :=
  zoom session (fun b d => mk_Driver b (scripts d)) (fun b => Some (c b)).

(** [driver.get(url)]. *)
Definition get (url : string) : M (Driver B) unit :=
  on_session (browser_get url).

(** [WebDriverWait(driver, timeout).until(lambda d:
    d.find_element_by_tag_name(tag))]; the timeout is in seconds. *)
Definition wait_for_tag (tag : string) (timeout : Z) : M (Driver B) unit :=
  on_session (browser_wait_for_tag tag timeout).

(** [driver.find_elements_by_css_selector(css)]. *)
Definition find_elements_by_css_selector (css : string)
    : M (Driver B) (list WebElement) :=
  on_session (browser_find_elements_by_css_selector css).

(** [driver.execute_script(js)]. *)
Definition execute_script (js : string) : M (Driver B) unit :=
  run modify (fun d => mk_Driver (session d) (scripts d ++ [js]));
  on_session (browser_execute_script js).

(** [sleep(t)], in milliseconds. *)
Definition sleep (ms : Z) : M (Driver B) unit :=
  modify (fun d => mk_Driver (browser_sleep ms (session d)) (scripts d)).

(** [driver.quit()]. *)
Definition quit : M (Driver B) unit :=
  modify (fun d => mk_Driver (browser_quit (session d)) (scripts d)).

End Calls.

End Selenium.

Import Selenium.

(** ** The page scraper *)

Module PageScraper.

(** A post is the pair (datetime, tweet). *)
Abbreviation Post := (string * string)%type.

Definition pause_videos_js : string :=
  "document.querySelectorAll('video').forEach(vid => vid.pause());".

Definition scroll_bottom_js : string :=
  "window.scrollTo(0, document.body.scrollHeight)".

Definition scroll_to_js (x y : Z) : string :=
  "window.scrollTo(" +:+ Text.of_int x +:+ ", " +:+ Text.of_int y +:+ ")".

Definition time_css : string := "a time".

Definition tweet_css : string :=
  "div.css-1dbjc4n.r-1iusvr4.r-16y2uox.r-1777fci.r-kzbkwu".

(** The state of one call of [scrape_full_page]: the driver and the
    local variables of the loop. *)
Record Scrape (B : Type) : Type := mk_Scrape {
  driver : Driver B;
  full_tweets : gset Post;
  num_tweets : Z;
  break_count : Z;
  num_scrolls : Z
}.
Global Arguments mk_Scrape {B} driver full_tweets num_tweets break_count num_scrolls.
Global Arguments driver {B} s.
Global Arguments full_tweets {B} s.
Global Arguments num_tweets {B} s.
Global Arguments break_count {B} s.
Global Arguments num_scrolls {B} s.

Inductive flow : Type := Next | Break.

Section WithBrowser.
Context {B : Type} `{Browser B}.

(** [TweetScraper.scrape_visible_data]. *)
Definition scrape_visible_data (css_selector : string) (text_ scroll : bool)
    : M (Driver B) (list string) :=
  do web_elems <- find_elements_by_css_selector css_selector;
  let data :=
    if negb text_ then attr_datetime <$> web_elems else text <$> web_elems in
  if scroll then
    match last web_elems with
    | None => raise (IndexError "list index out of range")
    | Some last_elem =>
        let '(x, y) := location last_elem in
        run execute_script (scroll_to_js x y);
        ret data
    end
  else ret data.

Definition set_driver (d : Driver B) (s : Scrape B) : Scrape B :=
  mk_Scrape d (full_tweets s) (num_tweets s) (break_count s) (num_scrolls s).
Definition set_full_tweets (v : gset Post) (s : Scrape B) : Scrape B :=
  mk_Scrape (driver s) v (num_tweets s) (break_count s) (num_scrolls s).
Definition set_num_tweets (v : Z) (s : Scrape B) : Scrape B :=
  mk_Scrape (driver s) (full_tweets s) v (break_count s) (num_scrolls s).
Definition set_break_count (v : Z) (s : Scrape B) : Scrape B :=
  mk_Scrape (driver s) (full_tweets s) (num_tweets s) v (num_scrolls s).
Definition set_num_scrolls (v : Z) (s : Scrape B) : Scrape B :=
  mk_Scrape (driver s) (full_tweets s) (num_tweets s) (break_count s) v.

Definition on_driver {A} (m : M (Driver B) A) : M (Scrape B) A :=
  zoom driver set_driver m.

Definition set_len (X : gset Post) : Z := Z.of_nat (size X).

(** Lines 245 to 253: pause the videos, let the page settle, read the
    visible datetimes and the visible tweets. *)
Definition sample : M (Driver B) (list string * list string) :=
  run execute_script pause_videos_js;
  run sleep 1500;
  do datetimes <- scrape_visible_data time_css false false;
  do tweets <- scrape_visible_data tweet_css true true;
  ret (datetimes, tweets).

(** Lines 254 to 273: the rest of the loop body, from the assertion to
    the bookkeeping at its end. *)
Definition account (datetimes tweets : list string) : M (Scrape B) flow :=
  run assert (len tweets =? len datetimes) "DIFFERENT NUMBER OF TWEETS AND DATETIMES";
  run modify (fun s => set_full_tweets (full_tweets s ∪ list_to_set (zip datetimes tweets)) s);
  do s <- Py.get;
  do f <-
    (if num_tweets s =? set_len (full_tweets s) then
       run modify (fun s => set_break_count (break_count s + 1) s);
       do s <- Py.get;
       if 3 <=? break_count s then ret Break
       else
         run on_driver (execute_script scroll_bottom_js);
         ret Next
     else
       run modify (set_break_count 0);
       ret Next);
  match f with
  | Break => ret Break
  | Next =>
      run modify (fun s => set_num_scrolls (num_scrolls s + 1) s);
      do s <- Py.get;
      if 3200 <? num_scrolls s
      then raise (Exception "MAXIMUM NUMBER OF SCROLLS REACHED")
      else
        run modify (fun s => set_num_tweets (set_len (full_tweets s)) s);
        ret Next
  end.

(** One pass through the body of [while True]. *)
Definition loop_body : M (Scrape B) flow :=
  do '(datetimes, tweets) <- on_driver sample;
  account datetimes tweets.

Fixpoint scrape_loop (fuel : nat) : M (Scrape B) (gset Post) :=
  match fuel with
  | O => out_of_fuel
  | S fuel' =>
      do f <- loop_body;
      match f with
      | Break => do s <- Py.get; ret (full_tweets s)
      | Next => scrape_loop fuel'
      end
  end.

(** The locals of [scrape_full_page] before the loop. *)
Definition enter (d : Driver B) : Scrape B := mk_Scrape d ∅ (set_len ∅) 0 0.

(** No run takes more passes than this. *)
Definition max_passes : nat := 3201.

(** [TweetScraper.scrape_full_page]. *)
Definition scrape_full_page : M (Driver B) (gset Post) :=
  fun d =>
    match scrape_loop max_passes (enter d) with
    | None => None
    | Some (r, s) => Some (r, driver s)
    end.

(** *** The passes of a run

    The record of a run: for each pass through the loop body, the state
    it started from, how it ended and the state it left.  A pass is
    followed by another one exactly when it ended in [Ok Next]. *)

Record Pass : Type := mk_Pass {
  before : Scrape B;
  outcome : result flow;
  after : Scrape B
}.

Fixpoint passes (fuel : nat) (s : Scrape B) : list Pass :=
  match fuel with
  | O => []
  | S fuel' =>
      match loop_body s with
      | None => []
      | Some (r, s') =>
          mk_Pass s r s' ::
          match r with
          | Ok Next => passes fuel' s'
          | _ => []
          end
      end
  end.

(** The posts a pass read off the page. *)
Definition seen (p : Pass) : list Post :=
  match sample (driver (before p)) with
  | Some (Ok (datetimes, tweets), _) => zip datetimes tweets
  | _ => []
  end.

(** The datetimes a pass reads: the calls of [sample] up to the first
    query. *)
Definition visible_datetimes : M (Driver B) (list string) :=
  run execute_script pause_videos_js;
  run sleep 1500;
  scrape_visible_data time_css false false.

(** The elements the tweet query of a pass finds: the calls of
    [sample] up to that query. *)
Definition visible_tweets : M (Driver B) (list WebElement) :=
  run execute_script pause_videos_js;
  run sleep 1500;
  do datetimes <- scrape_visible_data time_css false false;
  find_elements_by_css_selector tweet_css.

(** The last tweet element a pass found, if it got that far and found
    one. *)
Definition anchor (p : Pass) : option WebElement :=
  match visible_tweets (driver (before p)) with
  | Some (Ok web_elems, _) => last web_elems
  | _ => None
  end.

(** The scripts a pass handed to the browser, in order. *)
Definition issued (p : Pass) : list string :=
  drop (length (scripts (driver (before p)))) (scripts (driver (after p))).

(** The scripts that scroll the window. *)
Definition is_scroll (js : string) : bool := Text.starts_with "window.scrollTo(" js.

(** Did the accumulated set get larger during the pass? *)
Definition grew (p : Pass) : bool :=
  set_len (full_tweets (before p)) <? set_len (full_tweets (after p)).

(** The number of consecutive passes without growth at the end of a
    record: the passes are counted from the last one backwards, up to
    the first that grew the set. *)
Fixpoint stalled_prefix (ps : list Pass) : nat :=
  match ps with
  | [] => O
  | p :: ps' => if grew p then O else S (stalled_prefix ps')
  end.

Definition stall_run (ps : list Pass) : nat := stalled_prefix (reverse ps).

End WithBrowser.

Global Arguments Pass B : clear implicits.

End PageScraper.

(** ** The export sink *)

Module Sink.

Import PageScraper.

(** The directories and the files on disk, a file being its text. *)
Record Disk : Type := mk_Disk {
  dirs : gset string;
  files : gmap string string
}.

Definition quote : ascii := "034".
Definition CR : ascii := "013".
Definition LF : ascii := "010".
Definition CRLF : string := String CR (String LF EmptyString).
Definition NL : string := String LF EmptyString.

(** The [csv] writer in its default dialect: a field is quoted when it
    holds the delimiter, the quote character, or a line break; a quote
    character inside a quoted field is doubled; a row ends in CR LF. *)
Definition special (c : ascii) : bool :=
  Ascii.eqb c "," || Ascii.eqb c quote || Ascii.eqb c CR || Ascii.eqb c LF.

Fixpoint needs_quote (s : string) : bool :=
  match s with
  | EmptyString => false
  | String c s' => special c || needs_quote s'
  end.

Fixpoint double_quotes (s : string) : string :=
  match s with
  | EmptyString => EmptyString
  | String c s' =>
      if Ascii.eqb c quote then String quote (String quote (double_quotes s'))
      else String c (double_quotes s')
  end.

Definition csv_field (s : string) : string :=
  if needs_quote s then String quote (double_quotes s) +:+ String quote EmptyString
  else s.

Definition csv_row (row : list string) : string :=
  Text.join "," (csv_field <$> row) +:+ CRLF.

Definition csv_rows (rows : list (list string)) : string :=
  foldr (fun row acc => csv_row row +:+ acc) "" rows.

(** [bool(folder)] for [folder: str = None]. *)
Definition truthy (folder : option string) : option string :=
  match folder with
  | Some f => if String.eqb f "" then None else Some f
  | None => None
  end.

(** [TweetScraper.export_csv]. *)
Definition export_csv (filename : string) (data : list (list string))
    (folder : option string) (disk : Disk) : Disk :=
  let '(disk, filename) :=
    match truthy folder with
    | Some f =>
        let disk :=
          if decide (f ∈ dirs disk) then disk
          else mk_Disk ({[f]} ∪ dirs disk) (files disk) in
        (disk, f +:+ "/" +:+ filename)
    | None => (disk, filename)
    end in
  mk_Disk (dirs disk)
    (<[filename := csv_row ["datetime"; "tweet"] +:+ csv_rows data]> (files disk)).

(** The rows [writerows] gets from a set of posts, and from the empty
    list of the timeout branch. *)
Definition rows_of (data : list Post) : list (list string) :=
  (fun p => [p.1; p.2]) <$> data.

End Sink.

(** ** The day loop of [run_scraper] *)

Module Orchestrator.

Import Calendar Scraper PageScraper Sink.

Record Run (B : Type) : Type := mk_Run {
  rdriver : Driver B;
  i : Z;
  err_counter : Z;
  logf : list string;       (* the writes to errors.log, oldest first *)
  stdout : list string;     (* the printed lines, oldest first *)
  disk : Disk
}.
Global Arguments mk_Run {B} rdriver i err_counter logf stdout disk.
Global Arguments rdriver {B} r.
Global Arguments i {B} r.
Global Arguments err_counter {B} r.
Global Arguments logf {B} r.
Global Arguments stdout {B} r.
Global Arguments disk {B} r.

Inductive ctl : Type := Continue | BreakLoop.

Section WithBrowser.
Context {B : Type} `{Browser B}.

Definition set_rdriver (d : Driver B) (r : Run B) : Run B :=
  mk_Run d (i r) (err_counter r) (logf r) (stdout r) (disk r).
Definition set_i (v : Z) (r : Run B) : Run B :=
  mk_Run (rdriver r) v (err_counter r) (logf r) (stdout r) (disk r).
Definition set_err_counter (v : Z) (r : Run B) : Run B :=
  mk_Run (rdriver r) (i r) v (logf r) (stdout r) (disk r).
Definition set_disk (v : Disk) (r : Run B) : Run B :=
  mk_Run (rdriver r) (i r) (err_counter r) (logf r) (stdout r) v.

Definition with_driver {A} (m : M (Driver B) A) : M (Run B) A :=
  zoom rdriver set_rdriver m.

(** [print(line)]. *)
Definition print (line : string) : M (Run B) unit :=
  modify (fun r =>
    mk_Run (rdriver r) (i r) (err_counter r) (logf r) (stdout r ++ [line]) (disk r)).

(** [logf.write(s)]. *)
Definition logf_write (s : string) : M (Run B) unit :=
  modify (fun r =>
    mk_Run (rdriver r) (i r) (err_counter r) (logf r ++ [s]) (stdout r) (disk r)).

(** The body of the [try] block after the two day strings are read. *)
Definition attempt (self : TweetScraper) (start_day end_day : string)
    : M (Driver B) (gset Post) :=
  let url := query_string self start_day end_day in
  run get url;
  let delay := 30 in
  run wait_for_tag "time" delay;
  run sleep 7000;
  scrape_full_page.

(** Lines 355 to 359: the export after the [try] statement. *)
Definition export_day (self : TweetScraper) (end_day : string) (data : list Post)
    : M (Run B) ctl :=
  let filename := coin_abbrv self +:+ "_tweets_" +:+ end_day +:+ ".csv" in
  let folder := "Tweets/" +:+ coin_name self in
  run modify (fun r => set_disk (export_csv filename (rows_of data) (Some folder) (disk r)) r);
  run with_driver (sleep 1000);
  run modify (fun r => set_i (i r + 1) r);
  ret Continue.

(** One pass through the body of [while i < len(dates)-1]. *)
Definition day_body (self : TweetScraper) (dates : list string) : M (Run B) ctl :=
  do r <- Py.get;
  match dates !! Z.to_nat (i r), dates !! Z.to_nat (i r + 1) with
  | Some start_day, Some end_day =>
      do outcome <- try (with_driver (attempt self start_day end_day));
      match outcome with
      | Ok data => export_day self end_day (elements data)
      | Raise e =>
          if isinstance e CTimeoutException then
            run print ("Timeout - start:'" +:+ start_day +:+ "', end: '" +:+ end_day +:+ "'");
            run logf_write (NL +:+ "Timeout - '" +:+ end_day +:+ "'");
            export_day self end_day []
          else if isinstance e CWebDriverException then
            run modify (fun r => set_err_counter (err_counter r + 1) r);
            do r <- Py.get;
            if 5 <=? err_counter r then
              run print "Error Counter >= threshold. FUNCTION TERMINATED";
              ret BreakLoop
            else ret Continue
          else if isinstance e CException then
            run logf_write (NL +:+ "End Date: " +:+ end_day +:+ ". Error: '" +:+ str_exn e +:+ "'");
            run print ("Error logged " +:+ end_day);
            run modify (fun r => set_i (i r + 1) r);
            ret Continue
          else raise e
      end
  | _, _ => raise (IndexError "list index out of range")
  end.

Fixpoint day_loop (fuel : nat) (self : TweetScraper) (dates : list string)
    : M (Run B) unit :=
  match fuel with
  | O => out_of_fuel
  | S fuel' =>
      do r <- Py.get;
      if i r <? len dates - 1 then
        do c <- day_body self dates;
        match c with
        | Continue => day_loop fuel' self dates
        | BreakLoop => ret tt
        end
      else ret tt
  end.

(** Every pass but the aborting one advances [i] or counts a fault, and
    the fifth fault ends the loop. *)
Definition day_fuel (dates : list string) : nat := length dates + 5.

(** [TweetScraper.run_scraper], from the point where the driver
    exists. *)
Definition run_scraper (self : TweetScraper) : M (Run B) unit :=
  match date_rng (date_start self) (date_end self) with
  | None => raise (OverflowError "date value out of range")
  | Some dates =>
      run modify (set_i 0);
      run modify (set_err_counter 0);
      run day_loop (day_fuel dates) self dates;
      with_driver quit
  end.

End WithBrowser.

End Orchestrator.

(** ** The command line *)

Module Cli.

Import Scraper Orchestrator.



Section WithBrowser.
Context {B : Type} `{Browser B}.


End WithBrowser.

End Cli.

(** ** A scripted browser

    An instance of the interface for running the scraper on concrete
    feeds.  Each navigation consumes one scripted visit: a fault of
    [driver.get], or a page given by the frames it renders.  The page shows
    its first frame; an anchored scroll brings up the next frame, and the
    last frame stays.  The wait for the first [time] element times out when
    the frame shows none. *)

Module Sim.

Import PageScraper.

Record Frame : Type := mk_Frame {
  times : list WebElement;
  tweets : list WebElement
}.

Inductive Visit : Type :=
| Fault (e : exn)
| Page (frames : list Frame).

Record Sim : Type := mk_Sim {
  visits : list Visit;
  frames : list Frame;
  closed : bool
}.

Definition shown (b : Sim) : Frame :=
  match frames b with
  | f :: _ => f
  | [] => mk_Frame [] []
  end.

Definition sim_get (url : string) : Call Sim unit :=
  fun b =>
    match visits b with
    | [] => (Raise (WebDriverException "no such window"), b)
    | Fault e :: vs => (Raise e, mk_Sim vs (frames b) (closed b))
    | Page fs :: vs => (Ok tt, mk_Sim vs fs (closed b))
    end.

Definition sim_wait_for_tag (tag : string) (timeout : Z) : Call Sim unit :=
  fun b =>
    match times (shown b) with
    | [] => (Raise (TimeoutException ""), b)
    | _ :: _ => (Ok tt, b)
    end.

Definition sim_find (css : string) : Call Sim (list WebElement) :=
  fun b =>
    if String.eqb css time_css then (Ok (times (shown b)), b)
    else if String.eqb css tweet_css then (Ok (tweets (shown b)), b)
    else (Ok [], b).

Definition sim_execute_script (js : string) : Call Sim unit :=
  fun b =>
    if String.eqb js pause_videos_js || String.eqb js scroll_bottom_js
    then (Ok tt, b)
    else
      match frames b with
      | _ :: (_ :: _) as rest => (Ok tt, mk_Sim (visits b) rest (closed b))
      | _ => (Ok tt, b)
      end.

Global Instance sim_browser : Browser Sim := {|
  browser_get := sim_get;
  browser_wait_for_tag := sim_wait_for_tag;
  browser_find_elements_by_css_selector := sim_find;
  browser_execute_script := sim_execute_script;
  browser_sleep := fun _ b => b;
  browser_quit := fun b => mk_Sim (visits b) (frames b) true
|}.

(** A frame showing the given posts, one [time] element and one tweet
    element per post, stacked 100 pixels apart. *)
Definition frame_of (posts : list Post) : Frame :=
  mk_Frame
    ((fun p => mk_WebElement p.1 "" (0, 0)) <$> posts)
    (imap (fun k p => mk_WebElement "" p.2 (0, 100 * Z.of_nat k)) posts).

Definition on_page (fs : list Frame) : Driver Sim :=
  mk_Driver (mk_Sim [] fs false) [].

Definition fresh (vs : list Visit) : Driver Sim :=
  mk_Driver (mk_Sim vs [] false) [].

End Sim.

(** * Properties *)

(** ** Decimal numerals *)

Module TextFacts.

Definition numeral_char (c : ascii) : bool := Text.is_digit c || Ascii.eqb c "-".

Fixpoint numeral (s : string) : bool :=
  match s with
  | EmptyString => true
  | String c s' => numeral_char c && numeral s'
  end.

Lemma append_cons c (s t : string) : String c s +:+ t = String c (s +:+ t).
Proof. reflexivity. Qed.

Lemma append_nil (t : string) : "" +:+ t = t.
Proof. reflexivity. Qed.

Lemma numeral_app s t : numeral (s +:+ t) = numeral s && numeral t.
Proof.
  induction s as [|c s IH]; [reflexivity|].
  rewrite append_cons. cbn [numeral]. rewrite IH, andb_assoc. reflexivity.
Qed.

Lemma append_assoc (s t u : string) : (s +:+ t) +:+ u = s +:+ (t +:+ u).
Proof.
  induction s as [|c s IH]; [reflexivity|].
  rewrite !append_cons, IH. reflexivity.
Qed.

Lemma pretty_N_char_numeral n : numeral_char (pretty_N_char n) = true.
Proof. unfold pretty_N_char. repeat case_match; reflexivity. Qed.

(** The digits [pretty_N_go] puts in front of its accumulator. *)
Lemma pretty_N_go_shape (x : N) (s : string) :
  exists t, pretty_N_go x s = t +:+ s /\ numeral t = true /\ ((0 < x)%N -> t <> "").
Proof.
  revert s. induction (N.lt_wf_0 x) as [x _ IH]; intros s.
  destruct (decide (x = 0%N)) as [->|Hx].
  - exists "". rewrite pretty_N_go_0.
    split; [reflexivity|]. split; [reflexivity|]. intros Hlt. inversion Hlt.
  - assert (Hpos : (0 < x)%N) by lia.
    rewrite pretty_N_go_step by exact Hpos.
    destruct (IH (x `div` 10)%N (N.div_lt x 10 Hpos eq_refl)
                (String (pretty_N_char (x `mod` 10)) s)) as (t & -> & Ht & _).
    exists (t +:+ String (pretty_N_char (x `mod` 10)) "").
    split; [rewrite append_assoc; reflexivity|].
    split.
    + rewrite numeral_app, Ht. cbn [numeral].
      rewrite pretty_N_char_numeral. reflexivity.
    + intros _. destruct t; discriminate.
Qed.

(** [str(n)] is a non-empty string of digits, with at most a sign. *)
Lemma of_int_numeral (z : Z) : numeral (Text.of_int z) = true /\ Text.of_int z <> "".
Proof.
  assert (Hpos : forall q : positive,
            numeral (pretty (N.pos q)) = true /\ pretty (N.pos q) <> "").
  { intros q. unfold pretty, pretty_N. rewrite decide_False by discriminate.
    destruct (pretty_N_go_shape (N.pos q) "") as (t & -> & Ht & Hne).
    rewrite numeral_app, Ht. split; [reflexivity|].
    specialize (Hne eq_refl). destruct t; [contradiction|discriminate]. }
  unfold Text.of_int, pretty, pretty_Z. destruct z as [|q|q].
  - split; [reflexivity|discriminate].
  - apply Hpos.
  - destruct (Hpos q) as [Hq _]. split; [|discriminate].
    change (numeral (String "-" (pretty (N.pos q))) = true).
    cbn [numeral]. rewrite Hq. reflexivity.
Qed.

End TextFacts.

(** ** The calendar *)

Module CalendarFacts.

Import Calendar Scraper.

Ltac euclid := Z.div_mod_to_equations; lia.

(** Evaluate the table lookups and the tests at a known month. *)
Ltac decided t :=
  let v := eval vm_compute in t in
  match v with
  | true => change t with true in *
  | false => change t with false in *
  end.

Ltac tables :=
  repeat match goal with
  | |- context [table ?t ?m] =>
      let v := eval vm_compute in (table t m) in
      progress change (table t m) with v
  | H : context [table ?t ?m] |- _ =>
      let v := eval vm_compute in (table t m) in
      progress change (table t m) with v in H
  | |- context [Z.ltb ?a ?b] => decided (Z.ltb a b)
  | |- context [Z.eqb ?a ?b] => decided (Z.eqb a b)
  | H : context [Z.ltb ?a ?b] |- _ => decided (Z.ltb a b)
  | H : context [Z.eqb ?a ?b] |- _ => decided (Z.eqb a b)
  end;
  cbn [andb orb negb] in *.

Lemma is_leap_true y : is_leap y = true <-> (y mod 4 = 0 /\ (y mod 100 <> 0 \/ y mod 400 = 0)).
Proof.
  unfold is_leap. rewrite andb_true_iff, orb_true_iff, negb_true_iff.
  rewrite !Z.eqb_eq, Z.eqb_neq. tauto.
Qed.

Lemma is_leap_false y : is_leap y = false <-> ~ (y mod 4 = 0 /\ (y mod 100 <> 0 \/ y mod 400 = 0)).
Proof. rewrite <- is_leap_true. destruct (is_leap y); split; congruence. Qed.

Lemma days_before_year_succ y :
  days_before_year (y + 1) = days_before_year y + 365 + (if is_leap y then 1 else 0).
Proof.
  unfold days_before_year. cbv zeta. replace (y + 1 - 1) with y by lia.
  destruct (is_leap y) eqn:E.
  - apply is_leap_true in E. euclid.
  - apply is_leap_false in E. euclid.
Qed.

Definition month_day (leapyear : bool) (n : Z) : Z * Z :=
  let m := Z.shiftr (n + 50) 5 in
  let preceding :=
    table DAYS_BEFORE_MONTH m + (if (2 <? m) && leapyear then 1 else 0) in
  if n <? preceding then
    let m' := m - 1 in
    let preceding' :=
      preceding
      - (table DAYS_IN_MONTH m' + (if (m' =? 2) && leapyear then 1 else 0)) in
    (m', n - preceding' + 1)
  else (m, n - preceding + 1).

Lemma ord2ymd_in_year y t :
  1 <= y -> 0 <= t < 365 + (if is_leap y then 1 else 0) ->
  ord2ymd (days_before_year y + t + 1) =
  mk_datetime y (month_day (is_leap y) t).1 (month_day (is_leap y) t).2.
Proof.
  intros Hy Ht.
  set (a := (y - 1) / 400). set (b := ((y - 1) mod 400) / 100).
  set (c := ((y - 1) mod 100) / 4). set (e := (y - 1) mod 4).
  assert (HY : y - 1 = 400 * a + 100 * b + 4 * c + e) by (subst a b c e; euclid).
  assert (Hb : 0 <= b <= 3) by (subst b; euclid).
  assert (Hc : 0 <= c <= 24) by (subst c; euclid).
  assert (He : 0 <= e <= 3) by (subst e; euclid).
  assert (Ha : 0 <= a) by (subst a; euclid).
  assert (Hdby : days_before_year y = 146097 * a + 36524 * b + 1461 * c + 365 * e).
  { unfold days_before_year. cbv zeta. subst a b c e. euclid. }
  assert (Hleap : is_leap y = (e =? 3) && (negb (c =? 24) || (b =? 3))).
  { destruct (is_leap y) eqn:E.
    - apply is_leap_true in E. symmetry.
      rewrite andb_true_iff, orb_true_iff, negb_true_iff, !Z.eqb_eq, Z.eqb_neq.
      subst a b c e. euclid.
    - apply is_leap_false in E. symmetry.
      rewrite andb_false_iff, orb_false_iff, negb_false_iff, !Z.eqb_neq, Z.eqb_eq.
      subst a b c e. euclid. }
  clearbody a b c e.
  unfold ord2ymd. cbv zeta. unfold DI400Y, DI100Y, DI4Y.
  replace (days_before_year y + t + 1 - 1)
    with (146097 * a + (36524 * b + 1461 * c + 365 * e + t)) by lia.
  set (R := 36524 * b + 1461 * c + 365 * e + t).
  assert (HR : 0 <= R < 146097).
  { subst R. destruct (is_leap y); lia. }
  replace ((146097 * a + R) / 146097) with a by euclid.
  replace ((146097 * a + R) mod 146097) with R by euclid.
  destruct (decide (t = 365)) as [->|Ht365].
  - (* the last day of a leap year *)
    assert (Hl : is_leap y = true) by (destruct (is_leap y); [reflexivity|lia]).
    rewrite Hl in Hleap |- *. symmetry in Hleap.
    rewrite andb_true_iff, orb_true_iff, negb_true_iff, !Z.eqb_eq, Z.eqb_neq in Hleap.
    destruct Hleap as [He3 Hcb]. subst e.
    destruct (decide (b = 3 /\ c = 24)) as [[-> ->]|Hn].
    + replace R with 146096 by (subst R; lia).
      change (146096 / 36524) with 4. change (146096 mod 36524) with 0.
      change (0 / 1461) with 0. change (0 mod 1461) with 0.
      change (0 / 365) with 0. change (4 =? 4) with true.
      rewrite orb_true_r. f_equal. lia.
    + replace (R / 36524) with b by (subst R; euclid).
      replace (R mod 36524) with (1461 * c + 1460) by (subst R; euclid).
      replace ((1461 * c + 1460) / 1461) with c by euclid.
      replace ((1461 * c + 1460) mod 1461) with 1460 by euclid.
      change (1460 / 365) with 4. change (4 =? 4) with true. cbn [orb].
      vm_compute month_day. cbn [fst snd]. f_equal. lia.
  - assert (Ht' : t <= 364) by (destruct (is_leap y); lia).
    replace (R / 36524) with b by (subst R; euclid).
    replace (R mod 36524) with (1461 * c + 365 * e + t) by (subst R; euclid).
    replace ((1461 * c + 365 * e + t) / 1461) with c by euclid.
    replace ((1461 * c + 365 * e + t) mod 1461) with (365 * e + t) by euclid.
    replace ((365 * e + t) / 365) with e by euclid.
    replace ((365 * e + t) mod 365) with t by euclid.
    replace (e =? 4) with false by (symmetry; apply Z.eqb_neq; lia).
    replace (b =? 4) with false by (symmetry; apply Z.eqb_neq; lia).
    cbn [orb]. rewrite <- Hleap.
    replace (a * 400 + 1 + (b * 100 + c * 4 + e)) with y by lia.
    unfold month_day. cbv zeta.
    destruct (t <? _); reflexivity.
Qed.

Definition month_day_checked : bool :=
  forallb (fun leap =>
    forallb (fun m =>
      forallb (fun d =>
        if d <=? (if (m =? 2) && leap then 29 else table DAYS_IN_MONTH m) then
          let r := month_day leap
                     (table DAYS_BEFORE_MONTH m + (if (2 <? m) && leap then 1 else 0) + d - 1) in
          (r.1 =? m) && (r.2 =? d)
        else true) (seqZ 1 31)) (seqZ 1 12)) [true; false].

Lemma in_seqZ (x lo n : Z) : lo <= x < lo + n -> In x (seqZ lo n).
Proof. intros Hx. apply list_elem_of_In, elem_of_seqZ. exact Hx. Qed.

Lemma days_in_month_le_31 y m : 1 <= m <= 12 -> 28 <= days_in_month y m <= 31.
Proof.
  intros Hm. unfold days_in_month.
  assert (m = 1 \/ m = 2 \/ m = 3 \/ m = 4 \/ m = 5 \/ m = 6 \/ m = 7 \/ m = 8 \/
          m = 9 \/ m = 10 \/ m = 11 \/ m = 12) as Hcases by lia.
  destruct (is_leap y);
    repeat (destruct Hcases as [->|Hcases]); try subst m; tables; cbn; lia.
Qed.

Lemma month_day_correct leap m d :
  1 <= m <= 12 ->
  1 <= d <= (if (m =? 2) && leap then 29 else table DAYS_IN_MONTH m) ->
  month_day leap
    (table DAYS_BEFORE_MONTH m + (if (2 <? m) && leap then 1 else 0) + d - 1) = (m, d).
Proof.
  intros Hm Hd.
  assert (Hall : month_day_checked = true) by (vm_compute; reflexivity).
  unfold month_day_checked in Hall.
  rewrite forallb_forall in Hall.
  assert (Hin : In leap [true; false]) by (destruct leap; cbn; auto).
  specialize (Hall leap Hin). rewrite forallb_forall in Hall.
  specialize (Hall m (in_seqZ m 1 12 ltac:(lia))). rewrite forallb_forall in Hall.
  assert (Hd31 : d <= 31).
  { pose proof (days_in_month_le_31 (if leap then 4 else 1) m Hm) as H31.
    unfold days_in_month in H31. destruct leap; cbn [is_leap] in *;
      [change (is_leap 4) with true in H31|change (is_leap 1) with false in H31]; lia. }
  specialize (Hall d (in_seqZ d 1 31 ltac:(lia))).
  destruct Hd as [Hd1 Hd2]. apply Z.leb_le in Hd2. rewrite Hd2 in Hall.
  cbv zeta in Hall. apply andb_true_iff in Hall as [H1 H2].
  apply Z.eqb_eq in H1, H2.
  destruct (month_day leap _) as [m' d']. cbn [fst snd] in *. congruence.
Qed.

(** The offset of a valid date within its year. *)
Lemma offset_in_year y m d :
  1 <= m <= 12 -> 1 <= d <= days_in_month y m ->
  0 <= days_before_month y m + d - 1 < 365 + (if is_leap y then 1 else 0).
Proof.
  intros Hm Hd. unfold days_before_month, days_in_month in *.
  assert (m = 1 \/ m = 2 \/ m = 3 \/ m = 4 \/ m = 5 \/ m = 6 \/ m = 7 \/ m = 8 \/
          m = 9 \/ m = 10 \/ m = 11 \/ m = 12) as Hcases by lia.
  destruct (is_leap y);
    repeat (destruct Hcases as [->|Hcases]); try subst m; tables; cbn in *; lia.
Qed.

Theorem ord2ymd_toordinal d : valid d -> ord2ymd (toordinal d) = d.
Proof.
  destruct d as [y m dd]. unfold valid, toordinal, ymd2ord, MINYEAR. cbn [year month day].
  intros (Hy & Hm & Hd).
  replace (days_before_year y + days_before_month y m + dd)
    with (days_before_year y + (days_before_month y m + dd - 1) + 1) by lia.
  rewrite ord2ymd_in_year by (try apply offset_in_year; lia).
  unfold days_before_month. unfold days_in_month in Hd.
  rewrite month_day_correct by assumption. reflexivity.
Qed.

Ltac month_cases m :=
  let Hcases := fresh "Hcases" in
  assert (m = 1 \/ m = 2 \/ m = 3 \/ m = 4 \/ m = 5 \/ m = 6 \/ m = 7 \/ m = 8 \/
          m = 9 \/ m = 10 \/ m = 11 \/ m = 12) as Hcases by lia;
  repeat (destruct Hcases as [->|Hcases]); try subst m.

Lemma days_before_year_mono y y' : y <= y' -> days_before_year y <= days_before_year y'.
Proof. intros Hle. unfold days_before_year. cbv zeta. euclid. Qed.

(** A valid date has an ordinal between 1 and [MAXORDINAL], so adding
    days within the range of valid dates never overflows. *)
Lemma toordinal_bounds d : valid d -> 1 <= toordinal d <= MAXORDINAL.
Proof.
  destruct d as [y m dd]. unfold valid, toordinal, ymd2ord, MINYEAR, MAXYEAR, MAXORDINAL.
  cbn [year month day]. intros (Hy & Hm & Hd).
  pose proof (offset_in_year y m dd Hm Hd) as Hoff.
  pose proof (days_before_year_succ y) as Hsucc.
  pose proof (days_before_year_mono 1 y ltac:(lia)) as Hlo.
  pose proof (days_before_year_mono (y + 1) 10000 ltac:(lia)) as Hhi.
  change (days_before_year 1) with 0 in Hlo.
  change (days_before_year 10000) with 3652059 in Hhi.
  lia.
Qed.

Definition last_day : datetime := mk_datetime 9999 12 31.

Lemma tomorrow_spec d :
  valid d -> d <> last_day ->
  valid (tomorrow d) /\ toordinal (tomorrow d) = toordinal d + 1.
Proof.
  destruct d as [y m dd]. unfold valid, tomorrow, toordinal, ymd2ord, MINYEAR, MAXYEAR.
  cbn [year month day]. intros (Hy & Hm & Hd) Hne.
  destruct (dd <? days_in_month y m) eqn:Hlt.
  - apply Z.ltb_lt in Hlt. cbn [year month day]. split; [|lia]. lia.
  - apply Z.ltb_ge in Hlt. assert (dd = days_in_month y m) as -> by lia.
    destruct (m <? 12) eqn:Hm12.
    + apply Z.ltb_lt in Hm12. cbn [year month day].
      pose proof (days_in_month_le_31 y (m + 1) ltac:(lia)).
      split; [lia|].
      unfold days_before_month, days_in_month.
      assert (m = 1 \/ m = 2 \/ m = 3 \/ m = 4 \/ m = 5 \/ m = 6 \/ m = 7 \/ m = 8 \/
              m = 9 \/ m = 10 \/ m = 11) as Hcases by lia.
      destruct (is_leap y);
        repeat (destruct Hcases as [->|Hcases]); try subst m; tables; cbn; lia.
    + apply Z.ltb_ge in Hm12. assert (m = 12) as -> by lia.
      cbn [year month day].
      assert (y < 9999).
      { destruct (decide (y = 9999)) as [->|]; [|lia].
        exfalso. apply Hne. reflexivity. }
      split.
      * split; [lia|]. split; [lia|]. unfold days_in_month. tables. cbn. lia.
      * rewrite days_before_year_succ. unfold days_before_month, days_in_month.
        tables. destruct (is_leap y), (is_leap (y + 1)); cbn; lia.
Qed.

(** The order of datetimes agrees with the order of their ordinals. *)
Lemma le_toordinal a b : valid a -> valid b -> le a b -> toordinal a <= toordinal b.
Proof.
  destruct a as [ya ma da], b as [yb mb db].
  unfold valid, le, toordinal, ymd2ord, MINYEAR, MAXYEAR. cbn [year month day].
  intros (Hya & Hma & Hda) (Hyb & Hmb & Hdb) Hle.
  pose proof (offset_in_year ya ma da Hma Hda) as Hoa.
  pose proof (offset_in_year yb mb db Hmb Hdb) as Hob.
  destruct Hle as [Hy|[-> Hle]].
  - pose proof (days_before_year_succ ya) as Hsucc.
    pose proof (days_before_year_mono (ya + 1) yb ltac:(lia)). lia.
  - destruct Hle as [Hm|[-> Hd]]; [|lia].
    assert (days_before_month yb ma + days_in_month yb ma <= days_before_month yb mb);
      [|lia].
    clear Hda Hdb Hoa Hob.
    unfold days_before_month, days_in_month.
    destruct (is_leap yb); month_cases ma; month_cases mb; try lia; tables; cbn; lia.
Qed.


Lemma toordinal_inj a b : valid a -> valid b -> toordinal a = toordinal b -> a = b.
Proof.
  intros Ha Hb Heq. rewrite <- (ord2ymd_toordinal a Ha), <- (ord2ymd_toordinal b Hb).
  rewrite Heq. reflexivity.
Qed.

(** The day [k] days after [d], by the calendar. *)
Fixpoint days_later (k : nat) (d : datetime) : datetime :=
  match k with
  | O => d
  | S k' => tomorrow (days_later k' d)
  end.

Lemma days_later_spec d k :
  valid d -> toordinal d + Z.of_nat k <= MAXORDINAL ->
  valid (days_later k d) /\ toordinal (days_later k d) = toordinal d + Z.of_nat k.
Proof.
  intros Hd. induction k as [|k IH]; intros Hk.
  - cbn. split; [assumption|lia].
  - destruct IH as [Hv Ho]; [lia|].
    cbn [days_later].
    destruct (tomorrow_spec (days_later k d) Hv) as [Hv' Ho'].
    { intros Heq. rewrite Heq in Ho. change (toordinal last_day) with MAXORDINAL in Ho. lia. }
    split; [assumption|]. rewrite Ho', Ho. lia.
Qed.

Lemma add_days_days_later d k :
  valid d -> toordinal d + Z.of_nat k <= MAXORDINAL ->
  add_days d (Z.of_nat k) = Some (days_later k d).
Proof.
  intros Hd Hk. destruct (days_later_spec d k Hd Hk) as [Hv Ho].
  pose proof (toordinal_bounds d Hd) as Hb.
  unfold add_days. cbv zeta.
  replace ((0 <? toordinal d + Z.of_nat k) && (toordinal d + Z.of_nat k <=? MAXORDINAL))
    with true.
  2: { symmetry. apply andb_true_iff. rewrite Z.ltb_lt, Z.leb_le. lia. }
  rewrite <- Ho, (ord2ymd_toordinal _ Hv). reflexivity.
Qed.

Theorem date_rng_spec start end_ :
  valid start -> valid end_ -> le start end_ ->
  let n := Z.to_nat (sub_days end_ start) in
  0 <= sub_days end_ start /\
  date_rng start end_ = Some ((fun k => strftime (days_later k start)) <$> seq 0 (S n)) /\
  days_later n start = end_ /\
  (forall k, (k <= n)%nat -> valid (days_later k start)).
Proof.
  intros Hs He Hle n.
  pose proof (le_toordinal _ _ Hs He Hle) as Hord.
  pose proof (toordinal_bounds _ He) as Hbe.
  assert (Hsub : 0 <= sub_days end_ start) by (unfold sub_days; lia).
  assert (Hn : Z.of_nat n = sub_days end_ start) by (subst n; lia).
  assert (Hk : forall k, (k <= n)%nat -> toordinal start + Z.of_nat k <= MAXORDINAL).
  { intros k Hkn. unfold sub_days in Hn. lia. }
  split; [exact Hsub|]. split; [|split].
  - unfold date_rng, range. cbv zeta.
    replace (Z.to_nat (sub_days end_ start + 1)) with (S n) by lia.
    apply mapM_Some. apply Forall2_fmap. apply Forall_Forall2_diag.
    apply Forall_forall. intros k Hin. apply elem_of_seq in Hin.
    unfold compose. rewrite add_days_days_later by (try apply Hk; auto; lia).
    reflexivity.
  - destruct (days_later_spec start n Hs (Hk n (Nat.le_refl n))) as [Hv Ho].
    apply toordinal_inj; auto. rewrite Ho. unfold sub_days in Hn. lia.
  - intros k Hkn. apply (days_later_spec start k Hs (Hk k Hkn)).
Qed.

Lemma validb_valid d : validb d = true <-> valid d.
Proof.
  unfold validb, valid. rewrite !andb_true_iff, !Z.leb_le. tauto.
Qed.











End CalendarFacts.

(** ** The date range and the constructor *)

Module ScraperFacts.

Import Calendar Scraper CalendarFacts.



Lemma le_refl d : le d d.
Proof. unfold le. right. split; [reflexivity|]. right. split; [reflexivity|lia]. Qed.

Lemma date_rng_short start end_ :
  valid start -> valid end_ -> le end_ start ->
  date_rng start end_ = Some (if decide (end_ = start) then [strftime start] else []).
Proof.
  intros Hs He Hle. destruct (decide (end_ = start)) as [->|Hne].
  - destruct (date_rng_spec start start Hs Hs (le_refl start)) as (_ & Hrun & _).
    rewrite Hrun. unfold sub_days. replace (toordinal start - toordinal start) with 0 by lia.
    reflexivity.
  - pose proof (le_toordinal _ _ He Hs Hle) as Hord.
    assert (toordinal end_ <> toordinal start)
      by (intros Heq; apply Hne, toordinal_inj; assumption).
    unfold date_rng, range, sub_days.
    replace (Z.to_nat (toordinal end_ - toordinal start + 1)) with O by lia.
    reflexivity.
Qed.

(** [date_rng] does not check the order of its arguments: an end before the
    start gives the empty list, and an end equal to the start gives that one
    day. *)
Theorem date_rng_short_ranges start end_ :
  valid start -> valid end_ -> le end_ start ->
  date_rng start end_ = Some (if decide (end_ = start) then [strftime start] else []).
Proof. exact (date_rng_short start end_). Qed.


Definition new_year : datetime := mk_datetime 2022 1 1.
Definition third_of_january : datetime := mk_datetime 2022 1 3.


Lemma date_rng_short_ranges_witness :
  date_rng third_of_january new_year = Some [] /\
  date_rng new_year new_year = Some ["2022-01-01"].
Proof.
  split.
  - rewrite (date_rng_short_ranges third_of_january new_year).
    + reflexivity.
    + apply validb_valid. reflexivity.
    + apply validb_valid. reflexivity.
    + unfold le, new_year, third_of_january. cbn. lia.
  - vm_compute. reflexivity.
Defined.

End ScraperFacts.

(** ** The page scraper *)

Module PageScraperFacts.

Import PageScraper.

Section WithBrowser.
Context {B : Type} `{Browser B}.

Implicit Types (s : Scrape B) (d : Driver B) (p : Pass B).

Ltac scrape_simpl :=
  cbn [driver full_tweets num_tweets break_count num_scrolls
       set_driver set_full_tweets set_num_tweets set_break_count set_num_scrolls
       before outcome after] in *.

(** The bookkeeping at the end of a pass that goes on. *)
Definition tail s : option (result flow * Scrape B) :=
  let s' := set_num_scrolls (num_scrolls s + 1) s in
  if 3200 <? num_scrolls s + 1
  then Some (Raise (Exception "MAXIMUM NUMBER OF SCROLLS REACHED"), s')
  else Some (Ok Next, set_num_tweets (set_len (full_tweets s')) s').

(** *** The calls of one pass, written out *)

Lemma find_elements_unfold css d :
  find_elements_by_css_selector css d =
  Some (let r := browser_find_elements_by_css_selector css (session d) in
        (r.1, mk_Driver r.2 (scripts d))).
Proof.
  unfold find_elements_by_css_selector, on_session, zoom.
  destruct (browser_find_elements_by_css_selector css (session d)); reflexivity.
Qed.

Lemma execute_script_unfold js d :
  execute_script js d =
  Some (let r := browser_execute_script js (session d) in
        (r.1, mk_Driver r.2 (scripts d ++ [js]))).
Proof.
  unfold execute_script, on_session, zoom, bind, modify. cbn.
  destruct (browser_execute_script js (session d)) as [[[]|e] b]; reflexivity.
Qed.

Lemma scrape_visible_data_unfold css text_ scroll d :
  scrape_visible_data css text_ scroll d =
  match find_elements_by_css_selector css d with
  | None => None
  | Some (Raise e, d') => Some (Raise e, d')
  | Some (Ok web_elems, d') =>
      let data :=
        if negb text_ then attr_datetime <$> web_elems else text <$> web_elems in
      if scroll then
        match last web_elems with
        | None => Some (Raise (IndexError "list index out of range"), d')
        | Some last_elem =>
            match execute_script
                    (scroll_to_js (location last_elem).1 (location last_elem).2) d' with
            | None => None
            | Some (Raise e, d'') => Some (Raise e, d'')
            | Some (Ok _, d'') => Some (Ok data, d'')
            end
        end
      else Some (Ok data, d')
  end.
Proof.
  unfold scrape_visible_data, bind.
  destruct (find_elements_by_css_selector css d) as [[[els|e] d']|]; try reflexivity.
  destruct scroll; [|reflexivity].
  destruct (last els) as [e|]; [|reflexivity].
  destruct (location e) as [x y]. cbn [fst snd].
  destruct (execute_script (scroll_to_js x y) d') as [[[[]|e'] d'']|]; reflexivity.
Qed.

(** No call of a pass is left waiting: the pass returns or raises. *)
Lemma sample_returns d : exists r d', sample d = Some (r, d').
Proof.
  unfold sample, bind, sleep, modify.
  rewrite execute_script_unfold. cbv zeta.
  destruct (browser_execute_script _ _) as [[[]|e] b]; cbn [fst snd]; eauto.
  rewrite scrape_visible_data_unfold, find_elements_unfold. cbv zeta.
  destruct (browser_find_elements_by_css_selector _ _) as [[els|e] b1];
    cbn [fst snd]; eauto.
  rewrite scrape_visible_data_unfold, find_elements_unfold. cbv zeta.
  destruct (browser_find_elements_by_css_selector _ _) as [[els2|e] b2];
    cbn [fst snd]; eauto.
  destruct (last els2) as [e|]; eauto.
  rewrite execute_script_unfold. cbv zeta.
  destruct (browser_execute_script _ _) as [[[]|e'] b3]; cbn [fst snd]; eauto.
Qed.

Lemma loop_body_unfold s :
  loop_body s =
  match sample (driver s) with
  | None => None
  | Some (Raise e, d') => Some (Raise e, set_driver d' s)
  | Some (Ok (datetimes, tweets), d') => account datetimes tweets (set_driver d' s)
  end.
Proof.
  unfold loop_body, bind, on_driver, zoom.
  destruct (sample (driver s)) as [[[[dts tws]|e] d']|]; reflexivity.
Qed.

Lemma account_unfold datetimes tweets s :
  account datetimes tweets s =
  if len tweets =? len datetimes then
    let s1 := set_full_tweets (full_tweets s ∪ list_to_set (zip datetimes tweets)) s in
    if num_tweets s1 =? set_len (full_tweets s1) then
      let s2 := set_break_count (break_count s1 + 1) s1 in
      if 3 <=? break_count s2 then Some (Ok Break, s2)
      else
        match execute_script scroll_bottom_js (driver s2) with
        | None => None
        | Some (Raise e, d') => Some (Raise e, set_driver d' s2)
        | Some (Ok _, d') => tail (set_driver d' s2)
        end
    else tail (set_break_count 0 s1)
  else Some (Raise (AssertionError "DIFFERENT NUMBER OF TWEETS AND DATETIMES"), s).
Proof.
  unfold account, assert, bind, Py.get, modify, ret, raise, on_driver, zoom, tail.
  destruct (len tweets =? len datetimes); [|reflexivity].
  cbv beta iota zeta.
  destruct (num_tweets _ =? _); [|scrape_simpl; destruct (3200 <? _); reflexivity].
  destruct (3 <=? _); [reflexivity|].
  destruct (execute_script scroll_bottom_js _) as [[[[]|e] d']|]; try reflexivity.
  scrape_simpl. destruct (3200 <? _); reflexivity.
Qed.

(** What a pass that ran to its end did to the locals and to the
    driver: the stalled branch or the growth branch of the source. *)
Lemma loop_body_Ok s f s' :
  loop_body s = Some (Ok f, s') ->
  exists datetimes tweets d',
    sample (driver s) = Some (Ok (datetimes, tweets), d') /\
    len tweets = len datetimes /\
    full_tweets s' = full_tweets s ∪ list_to_set (zip datetimes tweets) /\
    ((num_tweets s = set_len (full_tweets s') /\
      break_count s' = break_count s + 1 /\
      (f = Break <-> 3 <= break_count s + 1) /\
      match f with
      | Break => driver s' = d'
      | Next => execute_script scroll_bottom_js d' = Some (Ok tt, driver s')
      end)
     \/
     (num_tweets s <> set_len (full_tweets s') /\
      break_count s' = 0 /\ f = Next /\ driver s' = d')) /\
    match f with
    | Next =>
        num_scrolls s' = num_scrolls s + 1 /\ num_scrolls s' <= 3200 /\
        num_tweets s' = set_len (full_tweets s')
    | Break =>
        num_scrolls s' = num_scrolls s /\ num_tweets s' = num_tweets s
    end.
Proof.
  rewrite loop_body_unfold.
  destruct (sample (driver s)) as [[[[dts tws]|e] d']|] eqn:Hs; try discriminate.
  rewrite account_unfold. scrape_simpl.
  destruct (len tws =? len dts) eqn:Hlen; [|discriminate].
  apply Z.eqb_eq in Hlen. intros Hrun.
  exists dts, tws, d'. split; [reflexivity|]. split; [exact Hlen|].
  cbv zeta in Hrun. scrape_simpl.
  destruct (num_tweets s =? _) eqn:Hsz.
  - apply Z.eqb_eq in Hsz.
    destruct (3 <=? break_count s + 1) eqn:Hbc.
    + apply Z.leb_le in Hbc. injection Hrun as <- <-. scrape_simpl.
      repeat split; auto. left. repeat split; auto.
    + apply Z.leb_gt in Hbc.
      destruct (execute_script _ _) as [[[[]|e] d'']|] eqn:Hex; try discriminate.
      unfold tail in Hrun. scrape_simpl.
      destruct (3200 <? num_scrolls s + 1) eqn:Hns; [discriminate|].
      apply Z.ltb_ge in Hns. injection Hrun as <- <-. scrape_simpl.
      repeat split; auto; try lia. left. repeat split; auto; try discriminate. lia.
  - apply Z.eqb_neq in Hsz. unfold tail in Hrun. scrape_simpl.
    destruct (3200 <? num_scrolls s + 1) eqn:Hns; [discriminate|].
    apply Z.ltb_ge in Hns. injection Hrun as <- <-. scrape_simpl.
    repeat split; auto; try lia.
Qed.

Lemma loop_body_returns s : exists r s', loop_body s = Some (r, s').
Proof.
  rewrite loop_body_unfold.
  destruct (sample_returns (driver s)) as ([[dts tws]|e] & d' & ->); eauto.
  rewrite account_unfold. cbv zeta.
  destruct (len tws =? len dts); eauto.
  unfold tail.
  destruct (num_tweets _ =? _).
  - destruct (3 <=? _); eauto.
    rewrite execute_script_unfold. cbv zeta.
    destruct (browser_execute_script _ _) as [[[]|e] b]; cbn [fst snd]; eauto.
    destruct (3200 <? _); eauto.
  - destruct (3200 <? _); eauto.
Qed.

(** *** The invariant at the head of the loop *)

Definition at_head s : Prop :=
  num_tweets s = set_len (full_tweets s) /\
  0 <= break_count s <= 2 /\
  0 <= num_scrolls s <= 3200.

Lemma at_head_enter d : at_head (enter d).
Proof. unfold at_head, enter; scrape_simpl. repeat split; lia. Qed.

Lemma at_head_next s s' :
  at_head s -> loop_body s = Some (Ok Next, s') -> at_head s'.
Proof.
  intros (Hn & Hb & Hk) Hrun.
  apply loop_body_Ok in Hrun as (dts & tws & d' & _ & _ & _ & Hcase & Hk1 & Hk2 & Hn').
  unfold at_head. split; [exact Hn'|]. split; [|lia].
  destruct Hcase as [(_ & -> & Hbr & _)|(_ & -> & _)]; [|lia].
  assert (~ 3 <= break_count s + 1) by (intros Hge; apply Hbr in Hge; discriminate).
  lia.
Qed.

Lemma set_len_union_ge (X Y : gset Post) : set_len X <= set_len (X ∪ Y).
Proof.
  unfold set_len. apply inj_le, subseteq_size. set_solver.
Qed.

(** At the head of the loop [num_tweets] is the size of the set, so the
    test of the source, [num_tweets == len(full_tweets)], fails exactly
    when the pass grew the set. *)
Lemma grew_spec s f s' :
  at_head s -> loop_body s = Some (Ok f, s') ->
  (grew (mk_Pass s (Ok f) s') = true <-> num_tweets s <> set_len (full_tweets s')).
Proof.
  intros (Hn & _) Hrun.
  apply loop_body_Ok in Hrun as (dts & tws & d' & _ & _ & HF & _).
  unfold grew. scrape_simpl. rewrite Hn, HF.
  pose proof (set_len_union_ge (full_tweets s) (list_to_set (zip dts tws))).
  rewrite Z.ltb_lt. lia.
Qed.

(** The counter after a pass, from the counter before it. *)
Lemma pass_counter s f s' :
  at_head s -> loop_body s = Some (Ok f, s') ->
  break_count s' = (if grew (mk_Pass s (Ok f) s') then 0 else break_count s + 1) /\
  (f = Break <-> break_count s' = 3).
Proof.
  intros Hhead Hrun.
  pose proof (grew_spec s f s' Hhead Hrun) as Hg.
  destruct Hhead as (Hn & Hb & Hk).
  apply loop_body_Ok in Hrun as (dts & tws & d' & _ & _ & _ & Hcase & _).
  destruct Hcase as [(Hsz & -> & Hbr & _)|(Hsz & -> & -> & _)].
  - destruct (grew _); [exfalso; apply Hg; auto|].
    split; [reflexivity|]. rewrite Hbr. lia.
  - destruct (grew _); [|exfalso; apply Hsz; destruct Hg as [_ Hg]; 
                           destruct (decide (num_tweets s = set_len (full_tweets s'))); 
                           [assumption|discriminate (Hg n)]].
    split; [reflexivity|]. split; [discriminate|lia].
Qed.

(** *** The record of passes *)

Lemma passes_S fuel s :
  passes (S fuel) s =
  match loop_body s with
  | None => []
  | Some (r, s') =>
      mk_Pass s r s' ::
      match r with Ok Next => passes fuel s' | _ => [] end
  end.
Proof. reflexivity. Qed.

(** Every recorded pass started at the head of the loop and is a pass
    of the loop body. *)
Lemma passes_lookup fuel s k p :
  at_head s -> passes fuel s !! k = Some p ->
  at_head (before p) /\ loop_body (before p) = Some (outcome p, after p).
Proof.
  revert s k. induction fuel as [|fuel IH]; intros s k Hhead Hk; [discriminate|].
  rewrite passes_S in Hk.
  destruct (loop_body s) as [[r s']|] eqn:Hrun; [|discriminate].
  destruct k as [|k]; cbn in Hk.
  - injection Hk as <-. scrape_simpl. auto.
  - destruct r as [[]|e]; try discriminate.
    eapply IH; [|exact Hk]. eapply at_head_next; eauto.
Qed.

(** The counter of the source, replayed over a record of passes. *)
Definition counted (c : Z) (ps : list (Pass B)) : Z :=
  fold_left (fun c p => if grew p then 0 else c + 1) ps c.

Lemma passes_counted fuel s k p f :
  at_head s -> passes fuel s !! k = Some p -> outcome p = Ok f ->
  break_count (after p) = counted (break_count s) (take (S k) (passes fuel s)).
Proof.
  revert s k. induction fuel as [|fuel IH]; intros s k Hhead Hk Hf; [discriminate|].
  rewrite passes_S in Hk |- *.
  destruct (loop_body s) as [[r s']|] eqn:Hrun; [|discriminate].
  destruct k as [|k]; cbn in Hk.
  - injection Hk as <-. scrape_simpl. subst r.
    cbn. apply (pass_counter s f s' Hhead Hrun).
  - destruct r as [[]|e]; try discriminate.
    rewrite (IH s' k (at_head_next _ _ Hhead Hrun) Hk Hf).
    destruct (pass_counter s Next s' Hhead Hrun) as [Hc _].
    unfold counted. cbn [take fold_left]. rewrite Hc. reflexivity.
Qed.

Lemma stall_run_snoc (ps : list (Pass B)) p :
  stall_run (ps ++ [p]) = if grew p then O else S (stall_run ps).
Proof. unfold stall_run. rewrite reverse_snoc. reflexivity. Qed.

Lemma counted_stall_run (ps : list (Pass B)) :
  counted 0 ps = Z.of_nat (stall_run ps).
Proof.
  induction ps as [|p ps IH] using rev_ind; [reflexivity|].
  unfold counted in *. rewrite fold_left_app, stall_run_snoc. cbn.
  destruct (grew p); [reflexivity|]. rewrite IH. lia.
Qed.

(** A run that ends in [Break] returns the set of its last pass, and a
    run that returns a set ended in [Break]. *)
Lemma scrape_loop_break fuel s k p :
  passes fuel s !! k = Some p -> outcome p = Ok Break ->
  scrape_loop fuel s = Some (Ok (full_tweets (after p)), after p) /\
  length (passes fuel s) = S k.
Proof.
  revert s k. induction fuel as [|fuel IH]; intros s k Hk Hf; [discriminate|].
  rewrite passes_S in Hk |- *. cbn [scrape_loop]. unfold bind at 1.
  destruct (loop_body s) as [[r s']|] eqn:Hrun; [|discriminate].
  destruct k as [|k]; cbn in Hk.
  - injection Hk as <-. scrape_simpl. subst r. auto.
  - destruct r as [[]|e]; try discriminate.
    destruct (IH s' k Hk Hf) as [-> Hlen].
    split; [reflexivity|]. cbn [length]. rewrite Hlen. reflexivity.
Qed.

Lemma scrape_loop_Ok fuel s acc s' :
  scrape_loop fuel s = Some (Ok acc, s') ->
  exists p, last (passes fuel s) = Some p /\ outcome p = Ok Break /\
            after p = s' /\ acc = full_tweets s'.
Proof.
  revert s. induction fuel as [|fuel IH]; intros s Hrun; [discriminate|].
  rewrite passes_S. cbn [scrape_loop] in Hrun. unfold bind at 1 in Hrun.
  destruct (loop_body s) as [[[[]|e] s1]|] eqn:Hbody; try discriminate.
  - apply IH in Hrun as (p & Hlast & Hp).
    exists p. split; [|exact Hp].
    destruct (passes fuel s1); [discriminate|exact Hlast].
  - injection Hrun as <- <-. eexists. split; [reflexivity|]. auto.
Qed.

Lemma scrape_loop_returns fuel s :
  at_head s -> 3201 <= Z.of_nat fuel + num_scrolls s ->
  exists r s', scrape_loop fuel s = Some (r, s').
Proof.
  revert s. induction fuel as [|fuel IH]; intros s Hhead Hfuel.
  - destruct Hhead as (_ & _ & Hk). lia.
  - cbn [scrape_loop]. unfold bind at 1.
    destruct (loop_body_returns s) as ([[]|e] & s1 & Hbody); rewrite Hbody; eauto.
    apply IH; [eapply at_head_next; eauto|].
    apply loop_body_Ok in Hbody as (? & ? & ? & _ & _ & _ & _ & Hk & _).
    lia.
Qed.

(** [scrape_full_page] returns or raises on every browser: the fuel of
    the model is never used up. *)
Lemma scrape_full_page_returns d : exists r d', scrape_full_page d = Some (r, d').
Proof.
  unfold scrape_full_page.
  destruct (scrape_loop_returns max_passes (enter d) (at_head_enter d))
    as (r & s' & ->); [vm_compute; discriminate|eauto].
Qed.

(** *** The stall counter *)

(** C1.  In every run of the loop of [scrape_full_page], a pass that ran
    to its end leaves the stall counter [break_count] at 0 when it grew
    the accumulated set and one higher when it did not; so the counter
    is the number of consecutive passes without growth up to that pass.
    The pass leaves the loop with [break] exactly when the counter
    reaches 3, never with a smaller count, and that is exactly when the
    run returns its set. *)
Theorem stall_counter_discipline d k p f :
  passes max_passes (enter d) !! k = Some p ->
  outcome p = Ok f ->
  let record := passes max_passes (enter d) in
  (grew p = true -> break_count (after p) = 0) /\
  (grew p = false -> break_count (after p) = break_count (before p) + 1) /\
  break_count (after p) = Z.of_nat (stall_run (take (S k) record)) /\
  break_count (after p) <= 3 /\
  (f = Break <-> break_count (after p) = 3) /\
  (f = Break <->
   length record = S k /\ exists acc d', scrape_full_page d = Some (Ok acc, d')) /\
  (f = Break ->
   scrape_full_page d = Some (Ok (full_tweets (after p)), driver (after p))).
Proof.
  intros Hk Hf record.
  destruct (passes_lookup _ _ _ _ (at_head_enter d) Hk) as [Hhead Hbody].
  rewrite Hf in Hbody.
  destruct (pass_counter _ _ _ Hhead Hbody) as [Hc Hbr].
  assert (Hp : mk_Pass (before p) (Ok f) (after p) = p)
    by (destruct p; scrape_simpl; subst; reflexivity).
  rewrite Hp in Hc.
  assert (Hret : f = Break ->
            scrape_loop max_passes (enter d)
            = Some (Ok (full_tweets (after p)), after p) /\ length record = S k).
  { intros ->. apply scrape_loop_break; assumption. }
  split; [intros Hg; rewrite Hg in Hc; exact Hc|].
  split; [intros Hg; rewrite Hg in Hc; exact Hc|].
  split.
  { rewrite <- counted_stall_run.
    apply (passes_counted _ _ _ _ f (at_head_enter d) Hk Hf). }
  split.
  { destruct Hhead as (_ & Hb & _). destruct (grew p); lia. }
  split; [exact Hbr|].
  split.
  - split.
    + intros Hb. destruct (Hret Hb) as [Hrun Hlen]. split; [exact Hlen|].
      unfold scrape_full_page. rewrite Hrun. eauto.
    + intros (Hlen & acc & d' & Hrun). unfold scrape_full_page in Hrun.
      destruct (scrape_loop max_passes (enter d)) as [[r s']|] eqn:Hloop;
        [|discriminate].
      injection Hrun as -> _.
      apply scrape_loop_Ok in Hloop as (q & Hlast & Hq & _).
      rewrite last_lookup in Hlast. fold record in Hlast.
      rewrite Hlen in Hlast. cbn [pred] in Hlast.
      unfold record in Hlast. rewrite Hk in Hlast. injection Hlast as <-.
      rewrite Hf in Hq. injection Hq as ->. reflexivity.
  - intros Hb. destruct (Hret Hb) as [Hrun _].
    unfold scrape_full_page. rewrite Hrun. reflexivity.
Qed.

(** *** The accumulated set *)

Lemma seen_pass s r s' datetimes tweets d' :
  sample (driver s) = Some (Ok (datetimes, tweets), d') ->
  seen (mk_Pass s r s') = zip datetimes tweets.
Proof. intros Hs. unfold seen. scrape_simpl. rewrite Hs. reflexivity. Qed.

Lemma scrape_loop_union fuel s acc s' :
  scrape_loop fuel s = Some (Ok acc, s') ->
  acc = full_tweets s ∪ list_to_set (mjoin (seen <$> passes fuel s)).
Proof.
  revert s. induction fuel as [|fuel IH]; intros s Hrun; [discriminate|].
  rewrite passes_S. cbn [scrape_loop] in Hrun. unfold bind at 1 in Hrun.
  destruct (loop_body s) as [[[f|e] s1]|] eqn:Hbody; try discriminate.
  destruct (loop_body_Ok _ _ _ Hbody) as (dts & tws & d1 & Hs & _ & HF & _).
  rewrite fmap_cons, (seen_pass _ _ _ _ _ _ Hs).
  change (mjoin (?a :: ?b)) with (a ++ mjoin b).
  rewrite list_to_set_app_L, (assoc_L (∪)), <- HF.
  destruct f.
  - apply IH, Hrun.
  - injection Hrun as <- <-. rewrite fmap_nil. cbn [mjoin list_join list_to_set].
    rewrite (right_id_L ∅ (∪)). reflexivity.
Qed.

Lemma remove_dups_length_le (l : list Post) : (length (remove_dups l) <= length l)%nat.
Proof.
  induction l as [|x l IH]; [reflexivity|]. cbn [remove_dups].
  destruct (decide_rel elem_of x l); cbn [length]; lia.
Qed.

Lemma size_list_to_set_remove_dups (l : list Post) :
  size (list_to_set (C := gset Post) l) = length (remove_dups l).
Proof.
  rewrite <- (size_list_to_set (C := gset Post) (remove_dups l))
    by apply NoDup_remove_dups.
  f_equal. apply set_eq. intros x.
  rewrite !elem_of_list_to_set, elem_of_remove_dups. reflexivity.
Qed.

(** C2.  When [scrape_full_page] returns, the set it returns holds exactly
    the (datetime, tweet) pairs read in the passes of the run: a pair is in
    the set if and only if some pass read it, the size of the set is the
    number of distinct pairs read and never more than the number read, and
    equal pairs are one element of the set. *)
Theorem accumulated_is_distinct_seen d acc d' :
  scrape_full_page d = Some (Ok acc, d') ->
  let batches := seen <$> passes max_passes (enter d) in
  acc = list_to_set (mjoin batches) /\
  (forall post : Post, post ∈ acc <-> exists batch, batch ∈ batches /\ post ∈ batch) /\
  size acc = length (remove_dups (mjoin batches)) /\
  (size acc <= length (mjoin batches))%nat /\
  NoDup (elements acc).
Proof.
  intros Hrun batches. unfold scrape_full_page in Hrun.
  destruct (scrape_loop max_passes (enter d)) as [[r s']|] eqn:Hloop; [|discriminate].
  injection Hrun as -> _.
  apply scrape_loop_union in Hloop. cbn [enter full_tweets] in Hloop.
  fold batches in Hloop. rewrite (left_id_L ∅ (∪)) in Hloop.
  split; [exact Hloop|].
  split.
  { intros post. rewrite Hloop, elem_of_list_to_set, list_elem_of_join.
    split; intros (b & ? & ?); exists b; auto. }
  split; [rewrite Hloop; apply size_list_to_set_remove_dups|].
  split; [|apply NoDup_elements].
  rewrite Hloop, size_list_to_set_remove_dups.
  apply remove_dups_length_le.
Qed.

(** *** Mismatched extractions and empty selections *)

Definition mismatch : exn := AssertionError "DIFFERENT NUMBER OF TWEETS AND DATETIMES".
Definition out_of_range : exn := IndexError "list index out of range".

Lemma scrape_loop_raise fuel s e s' :
  loop_body s = Some (Raise e, s') -> scrape_loop (S fuel) s = Some (Raise e, s').
Proof. intros Hbody. cbn [scrape_loop]. unfold bind. rewrite Hbody. reflexivity. Qed.

Lemma scrape_full_page_raise d e s' :
  loop_body (enter d) = Some (Raise e, s') ->
  scrape_full_page d = Some (Raise e, driver s').
Proof.
  intros Hbody. unfold scrape_full_page. change max_passes with (S 3200).
  rewrite (scrape_loop_raise _ _ _ _ Hbody). reflexivity.
Qed.

(** C3, amended.  In a pass whose two extractions both return, with
    sequences of unequal lengths, the assertion fails: the pass raises the
    [AssertionError] and the run of [scrape_full_page] ends with it; the
    accumulated set and the counters are as the pass found them, no pair of
    the two sequences has been added. *)
Theorem mismatch_aborts_before_union s datetimes tweets d' :
  sample (driver s) = Some (Ok (datetimes, tweets), d') ->
  length datetimes <> length tweets ->
  exists s',
    loop_body s = Some (Raise mismatch, s') /\
    full_tweets s' = full_tweets s /\
    num_tweets s' = num_tweets s /\
    break_count s' = break_count s /\
    num_scrolls s' = num_scrolls s /\
    driver s' = d' /\
    (forall fuel, scrape_loop (S fuel) s = Some (Raise mismatch, s')) /\
    (forall d, s = enter d -> scrape_full_page d = Some (Raise mismatch, d')).
Proof.
  intros Hs Hlen. exists (set_driver d' s).
  assert (Hbody : loop_body s = Some (Raise mismatch, set_driver d' s)).
  { rewrite loop_body_unfold, Hs, account_unfold.
    destruct (len tweets =? len datetimes) eqn:E; [|reflexivity].
    apply Z.eqb_eq in E. unfold len in E. lia. }
  split; [exact Hbody|]. do 5 (split; [reflexivity|]).
  split; [intros fuel; apply scrape_loop_raise, Hbody|].
  intros d ->. apply (scrape_full_page_raise _ _ _ Hbody).
Qed.

Lemma visible_tweets_sample d els d1 :
  visible_tweets d = Some (Ok els, d1) ->
  sample d =
  match last els with
  | None => Some (Raise out_of_range, d1)
  | Some e =>
      match execute_script (scroll_to_js (location e).1 (location e).2) d1 with
      | None => None
      | Some (Raise err, d2) => Some (Raise err, d2)
      | Some (Ok _, d2) => 
          match visible_datetimes d with
          | Some (Ok datetimes, _) => Some (Ok (datetimes, text <$> els), d2)
          | _ => None
          end
      end
  end.
Proof.
  unfold visible_tweets, visible_datetimes, sample, bind.
  destruct (execute_script pause_videos_js d) as [[[[]|e0] d0]|]; try discriminate.
  destruct (sleep 1500 d0) as [[[[]|e0] d0']|]; try discriminate.
  destruct (scrape_visible_data time_css false false d0') as [[[dts|e0] d0'']|];
    try discriminate.
  intros Hfind. rewrite scrape_visible_data_unfold, Hfind. cbv zeta.
  destruct (last els) as [e|]; [|reflexivity].
  destruct (execute_script _ d1) as [[[[]|e1] d2]|]; reflexivity.
Qed.

(** C10.  [scrape_visible_data] with [scroll=True] on a selector that
    matches no element raises the [IndexError] of [web_elems[-1]]; it does
    not return the empty list.  So a pass in which the tweet query finds
    nothing raises that error: the pass is not counted as a stall, and the
    run of [scrape_full_page] ends with the error. *)
Theorem empty_selection_raises_IndexError :
  (forall css text_ d d',
     find_elements_by_css_selector css d = Some (Ok [], d') ->
     scrape_visible_data css text_ true d = Some (Raise out_of_range, d')) /\
  (forall s d',
     visible_tweets (driver s) = Some (Ok [], d') ->
     exists s',
       loop_body s = Some (Raise out_of_range, s') /\
       break_count s' = break_count s /\
       full_tweets s' = full_tweets s /\
       (forall fuel, scrape_loop (S fuel) s = Some (Raise out_of_range, s')) /\
       (forall d, s = enter d -> scrape_full_page d = Some (Raise out_of_range, d'))).
Proof.
  split.
  - intros css text_ d d' Hfind.
    rewrite scrape_visible_data_unfold, Hfind. reflexivity.
  - intros s d' Hvis. exists (set_driver d' s).
    assert (Hbody : loop_body s = Some (Raise out_of_range, set_driver d' s)).
    { rewrite loop_body_unfold, (visible_tweets_sample _ _ _ Hvis). reflexivity. }
    split; [exact Hbody|]. do 2 (split; [reflexivity|]).
    split; [intros fuel; apply scrape_loop_raise, Hbody|].
    intros d ->. apply (scrape_full_page_raise _ _ _ Hbody).
Qed.

(** *** The scroll commands of a pass *)

Lemma scroll_to_js_not_bottom x y : scroll_to_js x y <> scroll_bottom_js.
Proof.
  unfold scroll_to_js, scroll_bottom_js. intros Heq.
  destruct (TextFacts.of_int_numeral x) as [Hx Hx0].
  destruct (TextFacts.of_int_numeral y) as [Hy Hy0].
  repeat (rewrite TextFacts.append_cons in Heq || rewrite TextFacts.append_nil in Heq).
  repeat (injection Heq as Heq).
  destruct (Text.of_int x) as [|c px]; [contradiction|].
  rewrite TextFacts.append_cons in Heq. injection Heq as -> Heq.
  destruct px as [|c2 px].
  - repeat (rewrite TextFacts.append_cons in Heq || rewrite TextFacts.append_nil in Heq).
    repeat (injection Heq as Heq).
    destruct (Text.of_int y) as [|c3 py]; [contradiction|].
    rewrite TextFacts.append_cons in Heq. injection Heq as -> Heq.
    discriminate Hy.
  - rewrite TextFacts.append_cons in Heq. injection Heq as -> Heq.
    discriminate Hx.
Qed.

Lemma is_scroll_anchored x y : is_scroll (scroll_to_js x y) = true.
Proof. reflexivity. Qed.

(** What a sample that returned did: it found a last tweet element and
    handed two scripts to the browser, the pause of the videos and the
    scroll to that element. *)
Lemma sample_Ok d datetimes tweets d' :
  sample d = Some (Ok (datetimes, tweets), d') ->
  exists web_elems last_elem d1,
    visible_tweets d = Some (Ok web_elems, d1) /\
    last web_elems = Some last_elem /\
    tweets = text <$> web_elems /\
    scripts d' =
    scripts d ++ [pause_videos_js;
                  scroll_to_js (location last_elem).1 (location last_elem).2].
Proof.
  unfold sample, visible_tweets, bind, sleep, modify.
  rewrite execute_script_unfold. cbv zeta.
  destruct (browser_execute_script _ _) as [[[]|e] b0]; cbn [fst snd]; try discriminate.
  rewrite scrape_visible_data_unfold, find_elements_unfold. cbv zeta.
  destruct (browser_find_elements_by_css_selector _ _) as [[els1|e] b1];
    cbn [fst snd negb]; try discriminate.
  rewrite scrape_visible_data_unfold, !find_elements_unfold. cbv zeta.
  destruct (browser_find_elements_by_css_selector _ _) as [[els|e] b2];
    cbn [fst snd negb session scripts]; try discriminate.
  destruct (last els) as [e|] eqn:Hlast; [|discriminate].
  rewrite execute_script_unfold. cbv zeta.
  destruct (browser_execute_script _ _) as [[[]|e'] b3]; cbn [fst snd]; try discriminate.
  unfold ret. intros [= <- <- <-]. cbn [scripts].
  exists els, e, (mk_Driver b2 (scripts d ++ [pause_videos_js])).
  split; [reflexivity|]. split; [exact Hlast|]. split; [reflexivity|].
  symmetry. apply (app_assoc _ [_] [_]).
Qed.

Lemma issued_app s r s' (js : list string) :
  scripts (driver s') = scripts (driver s) ++ js -> issued (mk_Pass s r s') = js.
Proof.
  intros Heq. unfold issued. scrape_simpl. rewrite Heq. apply drop_app_length.
Qed.

(** C5.  A pass that ran to its end found a last tweet element and scrolled
    to its location.  When the pass grew the accumulated set, that anchored
    scroll is the only scroll command it issued, and no scroll to the
    bottom; when it did not grow the set and the loop goes on, it also
    issued the scroll to the bottom. *)
Theorem scroll_commands d k p f :
  passes max_passes (enter d) !! k = Some p ->
  outcome p = Ok f ->
  exists last_elem,
    anchor p = Some last_elem /\
    let anchored := scroll_to_js (location last_elem).1 (location last_elem).2 in
    issued p =
      [pause_videos_js; anchored] ++
      (if grew p then [] else match f with Next => [scroll_bottom_js] | Break => [] end) /\
    (grew p = true ->
     filter (fun js => is_scroll js = true) (issued p) = [anchored] /\
     scroll_bottom_js ∉ issued p) /\
    (grew p = false -> f = Next ->
     filter (fun js => is_scroll js = true) (issued p) = [anchored; scroll_bottom_js] /\
     scroll_bottom_js ∈ issued p).
Proof.
  intros Hk Hf.
  destruct (passes_lookup _ _ _ _ (at_head_enter d) Hk) as [Hhead Hbody].
  rewrite Hf in Hbody.
  pose proof (grew_spec _ _ _ Hhead Hbody) as Hg.
  assert (Hp : mk_Pass (before p) (Ok f) (after p) = p)
    by (destruct p; scrape_simpl; subst; reflexivity).
  rewrite Hp in Hg.
  destruct (loop_body_Ok _ _ _ Hbody) as (dts & tws & d1 & Hs & _ & _ & Hcase & _).
  destruct (sample_Ok _ _ _ _ Hs) as (els & e & d0 & Hvis & Hlast & _ & Hscr).
  exists e. split; [unfold anchor; rewrite Hvis; exact Hlast|].
  cbv zeta. set (anchored := scroll_to_js (location e).1 (location e).2) in *.
  assert (Hissued :
    issued p = [pause_videos_js; anchored] ++
      (if grew p then [] else match f with Next => [scroll_bottom_js] | Break => [] end)).
  { rewrite <- Hp at 1. apply issued_app.
    destruct Hcase as [(Hsz & _ & _ & Hdrv)|(Hsz & _ & -> & ->)].
    - destruct (grew p); [exfalso; apply Hg; auto|].
      destruct f.
      + rewrite execute_script_unfold in Hdrv. injection Hdrv as _ <-.
        cbn [scripts]. rewrite Hscr, <- app_assoc. reflexivity.
      + rewrite Hdrv, Hscr, app_nil_r. reflexivity.
    - destruct (grew p) eqn:Hgp; [rewrite Hscr, app_nil_r; reflexivity|].
      exfalso. destruct Hg as [_ Hg]. specialize (Hg Hsz). discriminate. }
  split; [exact Hissued|].
  assert (Hne : anchored <> scroll_bottom_js) by apply scroll_to_js_not_bottom.
  split.
  - intros Hgp. rewrite Hissued, Hgp. split; [reflexivity|].
    cbn [app]. rewrite !elem_of_cons, elem_of_nil.
    intros [Hc|[Hc|[]]]; [discriminate Hc|]. symmetry in Hc. contradiction.
  - intros Hgp ->. rewrite Hissued, Hgp. split; [reflexivity|].
    cbn [app]. rewrite !elem_of_cons. auto.
Qed.

(** *** The scroll budget *)

Lemma passes_num_scrolls fuel s k p :
  at_head s -> passes fuel s !! k = Some p ->
  num_scrolls (before p) = num_scrolls s + Z.of_nat k.
Proof.
  revert s k. induction fuel as [|fuel IH]; intros s k Hhead Hk; [discriminate|].
  rewrite passes_S in Hk.
  destruct (loop_body s) as [[r s']|] eqn:Hrun; [|discriminate].
  destruct k as [|k]; cbn in Hk.
  - injection Hk as <-. scrape_simpl. lia.
  - destruct r as [[]|e]; try discriminate.
    rewrite (IH s' k (at_head_next _ _ Hhead Hrun) Hk).
    apply loop_body_Ok in Hrun as (? & ? & ? & _ & _ & _ & _ & Hns & _). lia.
Qed.

(** Whatever a pass does, it does not take a post out of the set. *)
Lemma loop_body_keeps_posts s r s' :
  loop_body s = Some (r, s') -> full_tweets s ⊆ full_tweets s'.
Proof.
  rewrite loop_body_unfold.
  destruct (sample (driver s)) as [[[[dts tws]|e] d']|]; try discriminate.
  2: { intros [= _ <-]. reflexivity. }
  rewrite account_unfold. cbv zeta. scrape_simpl.
  assert (Hsub : full_tweets s ⊆ full_tweets s ∪ list_to_set (zip dts tws))
    by apply union_subseteq_l.
  destruct (len tws =? len dts); [|intros [= _ <-]; reflexivity].
  unfold tail. scrape_simpl.
  destruct (num_tweets s =? _).
  - destruct (3 <=? _); [intros [= _ <-]; exact Hsub|].
    destruct (execute_script _ _) as [[[[]|e] d'']|]; try discriminate;
      scrape_simpl; [|intros [= _ <-]; exact Hsub].
    destruct (3200 <? _); intros [= _ <-]; exact Hsub.
  - destruct (3200 <? _); intros [= _ <-]; exact Hsub.
Qed.

(** Every run of [scrape_full_page] ends, on every browser, within 3201
    passes: [num_scrolls] counts the passes made so far, the pass that
    starts with 3200 of them never goes on to another one, and no pass
    loses a post already in the set. *)
Theorem scroll_budget_bounds_the_run d k p :
  passes max_passes (enter d) !! k = Some p ->
  num_scrolls (before p) = Z.of_nat k /\
  (k <= 3200)%nat /\
  (k = 3200%nat -> outcome p <> Ok Next) /\
  full_tweets (before p) ⊆ full_tweets (after p) /\
  exists r d', scrape_full_page d = Some (r, d').
Proof.
  intros Hk.
  destruct (passes_lookup _ _ _ _ (at_head_enter d) Hk) as [Hhead Hbody].
  pose proof (passes_num_scrolls _ _ _ _ (at_head_enter d) Hk) as Hns.
  cbn [enter num_scrolls] in Hns.
  destruct Hhead as (_ & _ & Hbound).
  split; [lia|]. split; [lia|]. split.
  - intros -> Hnext. rewrite Hnext in Hbody.
    apply loop_body_Ok in Hbody as (? & ? & ? & _ & _ & _ & _ & H1 & H2 & _). lia.
  - split; [exact (loop_body_keeps_posts _ _ _ Hbody)|].
    apply scrape_full_page_returns.
Qed.

End WithBrowser.

(** A page that shows one post and nothing more however far one scrolls:
    the first pass grows the set, the next three stall. *)
Definition one_post_page : Driver Sim.Sim :=
  Sim.on_page [Sim.frame_of [("2022-01-01T10:00:00.000Z", "gm")]].

Lemma stall_counter_discipline_witness :
  exists p,
    passes max_passes (enter one_post_page) !! 3%nat = Some p /\
    outcome p = Ok Break /\
    break_count (after p) = 3 /\
    stall_run (passes max_passes (enter one_post_page)) = 3%nat.
Proof.
  assert (Hlen : length (passes max_passes (enter one_post_page)) = 4%nat)
    by (vm_compute; reflexivity).
  assert (Hout : outcome <$> passes max_passes (enter one_post_page) !! 3%nat
                 = Some (Ok Break)) by (vm_compute; reflexivity).
  destruct (passes max_passes (enter one_post_page) !! 3%nat) as [p|] eqn:Hk;
    [|discriminate Hout].
  injection Hout as Hout.
  exists p. split; [reflexivity|]. split; [exact Hout|].
  split; [|vm_compute; reflexivity].
  apply (stall_counter_discipline one_post_page 3 p Break Hk Hout). reflexivity.
Defined.

(** A feed whose frames overlap: five pairs are read before the set stops
    growing, seven in all, three of them distinct. *)
Definition overlapping_page : Driver Sim.Sim :=
  Sim.on_page
    [Sim.frame_of [("2022-01-01T10:00:00.000Z", "gm"); ("2022-01-01T10:05:00.000Z", "wagmi")];
     Sim.frame_of [("2022-01-01T10:05:00.000Z", "wagmi"); ("2022-01-01T10:09:00.000Z", "hodl")];
     Sim.frame_of [("2022-01-01T10:09:00.000Z", "hodl")]].

Lemma accumulated_is_distinct_seen_witness :
  exists acc d',
    scrape_full_page overlapping_page = Some (Ok acc, d') /\
    length (mjoin (seen <$> passes max_passes (enter overlapping_page))) = 7%nat /\
    length (remove_dups (mjoin (seen <$> passes max_passes (enter overlapping_page)))) = 3%nat /\
    size acc = 3%nat.
Proof.
  assert (Hsz : match scrape_full_page overlapping_page with
                | Some (Ok acc, _) => Some (size acc)
                | _ => None
                end = Some 3%nat) by (vm_compute; reflexivity).
  destruct (scrape_full_page overlapping_page) as [[[acc|e] d']|] eqn:Hrun;
    [|discriminate Hsz|discriminate Hsz].
  injection Hsz as Hsz.
  exists acc, d'. split; [reflexivity|]. split; [vm_compute; reflexivity|].
  destruct (accumulated_is_distinct_seen overlapping_page acc d' Hrun)
    as (_ & _ & Hsize & _).
  split; [rewrite <- Hsize; exact Hsz|exact Hsz].
Defined.

(** A page on which the two queries disagree: one [time] element, two
    tweet elements. *)
Definition two_for_one_page : Driver Sim.Sim :=
  Sim.on_page
    [Sim.mk_Frame
       [mk_WebElement "2022-01-01T10:00:00.000Z" "" (0, 0)]
       [mk_WebElement "" "gm" (0, 0); mk_WebElement "" "wagmi" (0, 120)]].

Lemma mismatch_aborts_before_union_witness :
  exists d' s',
    sample two_for_one_page
    = Some (Ok (["2022-01-01T10:00:00.000Z"], ["gm"; "wagmi"]), d') /\
    loop_body (enter two_for_one_page) = Some (Raise mismatch, s') /\
    full_tweets s' = ∅ /\
    scrape_full_page two_for_one_page = Some (Raise mismatch, d').
Proof.
  assert (Hs : fst <$> sample two_for_one_page
               = Some (Ok (["2022-01-01T10:00:00.000Z"], ["gm"; "wagmi"])))
    by (vm_compute; reflexivity).
  destruct (sample two_for_one_page) as [[r d']|] eqn:Hsample; [|discriminate Hs].
  injection Hs as ->.
  destruct (mismatch_aborts_before_union (enter two_for_one_page) _ _ d' Hsample)
    as (s' & Hbody & HF & _ & _ & _ & _ & _ & Hpage); [cbn; lia|].
  exists d', s'. split; [reflexivity|]. split; [exact Hbody|].
  split; [exact HF|]. apply Hpage. reflexivity.
Defined.

(** A page that shows a [time] element and no tweet element. *)
Definition no_tweet_page : Driver Sim.Sim :=
  Sim.on_page [Sim.mk_Frame [mk_WebElement "2022-01-01T10:00:00.000Z" "" (0, 0)] []].

(** C3 as the specification states it fails on that page: the two
    sequences have lengths 1 and 0, and the pass ends with the
    [IndexError] of the empty selection, not with the [AssertionError]. *)
Lemma mismatch_without_tweets_is_IndexError :
  fst <$> visible_datetimes no_tweet_page = Some (Ok ["2022-01-01T10:00:00.000Z"]) /\
  fst <$> visible_tweets no_tweet_page = Some (Ok []) /\
  fst <$> loop_body (enter no_tweet_page) = Some (Raise out_of_range) /\
  fst <$> loop_body (enter no_tweet_page) <> Some (Raise mismatch) /\
  fst <$> scrape_full_page no_tweet_page = Some (Raise out_of_range).
Proof.
  split; [vm_compute; reflexivity|]. split; [vm_compute; reflexivity|].
  split; [vm_compute; reflexivity|]. split; [vm_compute; discriminate|].
  vm_compute; reflexivity.
Qed.

Lemma empty_selection_raises_IndexError_witness :
  exists d',
    visible_tweets no_tweet_page = Some (Ok [], d') /\
    scrape_full_page no_tweet_page = Some (Raise out_of_range, d').
Proof.
  assert (Hv : fst <$> visible_tweets no_tweet_page = Some (Ok []))
    by (vm_compute; reflexivity).
  destruct (visible_tweets no_tweet_page) as [[r d']|] eqn:Hvis; [|discriminate Hv].
  injection Hv as ->. exists d'. split; [reflexivity|].
  destruct (proj2 empty_selection_raises_IndexError (enter no_tweet_page) d' Hvis)
    as (s' & _ & _ & _ & _ & Hpage).
  apply Hpage. reflexivity.
Defined.

Lemma scroll_commands_witness :
  exists p last_elem,
    passes max_passes (enter one_post_page) !! 0%nat = Some p /\
    outcome p = Ok Next /\
    grew p = true /\
    anchor p = Some last_elem /\
    issued p = [pause_videos_js; scroll_to_js (location last_elem).1 (location last_elem).2].
Proof.
  assert (Hout : (fun p => (outcome p, grew p)) <$>
                 passes max_passes (enter one_post_page) !! 0%nat
                 = Some (Ok Next, true)) by (vm_compute; reflexivity).
  destruct (passes max_passes (enter one_post_page) !! 0%nat) as [p|] eqn:Hk;
    [|discriminate Hout].
  injection Hout as Hout Hg.
  destruct (scroll_commands one_post_page 0 p Next Hk Hout)
    as (e & Hanchor & Hissued & _).
  exists p, e. split; [reflexivity|]. split; [exact Hout|]. split; [exact Hg|].
  split; [exact Hanchor|]. rewrite Hissued, Hg. reflexivity.
Defined.

Lemma scroll_budget_bounds_the_run_witness :
  exists p,
    passes max_passes (enter one_post_page) !! 2%nat = Some p /\
    num_scrolls (before p) = 2 /\
    exists r d', scrape_full_page one_post_page = Some (r, d').
Proof.
  assert (Hlen : length (passes max_passes (enter one_post_page)) = 4%nat)
    by (vm_compute; reflexivity).
  destruct (passes max_passes (enter one_post_page) !! 2%nat) as [p|] eqn:Hk.
  2: { apply lookup_ge_None in Hk. rewrite Hlen in Hk. lia. }
  exists p. split; [reflexivity|].
  destruct (scroll_budget_bounds_the_run one_post_page 2 p Hk) as (Hns & _ & _ & _ & Hret).
  split; [exact Hns|exact Hret].
Defined.

End PageScraperFacts.

(** ** The export sink *)

Module SinkFacts.

Import Sink.





End SinkFacts.

(** ** The day loop *)

Module OrchestratorFacts.

Import Calendar Scraper PageScraper Sink Orchestrator CalendarFacts ScraperFacts SinkFacts.

Section WithBrowser.
Context {B : Type} `{Browser B}.
Implicit Types (r : Run B) (d : Driver B).

(** The file [run_scraper] writes for the day that ends on [end_day]. *)
Definition csv_name (self : TweetScraper) (end_day : string) : string :=
  coin_abbrv self +:+ "_tweets_" +:+ end_day +:+ ".csv".
Definition csv_folder (self : TweetScraper) : string := "Tweets/" +:+ coin_name self.

(** The state [export_day] leaves. *)
Definition exported (self : TweetScraper) (end_day : string) (data : list Post) r : Run B :=
  mk_Run (mk_Driver (browser_sleep 1000 (session (rdriver r))) (scripts (rdriver r)))
    (i r + 1) (err_counter r) (logf r) (stdout r)
    (export_csv (csv_name self end_day) (rows_of data) (Some (csv_folder self)) (disk r)).

Lemma export_day_eq self end_day data r :
  export_day self end_day data r = Some (Ok Continue, exported self end_day data r).
Proof. reflexivity. Qed.

Definition timeout_line (start_day end_day : string) : string :=
  "Timeout - start:'" +:+ start_day +:+ "', end: '" +:+ end_day +:+ "'".
Definition timeout_log (end_day : string) : string :=
  NL +:+ "Timeout - '" +:+ end_day +:+ "'".
Definition error_log (end_day : string) (e : exn) : string :=
  NL +:+ "End Date: " +:+ end_day +:+ ". Error: '" +:+ str_exn e +:+ "'".

(** The outcome of one pass of the day loop, by the outcome of its [try]
    block. *)
Definition handled (self : TweetScraper) (start_day end_day : string)
    (res : result (gset Post)) r : result ctl * Run B :=
  match res with
  | Ok data => (Ok Continue, exported self end_day (elements data) r)
  | Raise e =>
      if isinstance e CTimeoutException then
        (Ok Continue,
         exported self end_day []
           (mk_Run (rdriver r) (i r) (err_counter r)
              (logf r ++ [timeout_log end_day])
              (stdout r ++ [timeout_line start_day end_day]) (disk r)))
      else if isinstance e CWebDriverException then
        if 5 <=? err_counter r + 1 then
          (Ok BreakLoop,
           mk_Run (rdriver r) (i r) (err_counter r + 1) (logf r)
             (stdout r ++ ["Error Counter >= threshold. FUNCTION TERMINATED"]) (disk r))
        else
          (Ok Continue,
           mk_Run (rdriver r) (i r) (err_counter r + 1) (logf r) (stdout r) (disk r))
      else if isinstance e CException then
        (Ok Continue,
         mk_Run (rdriver r) (i r + 1) (err_counter r)
           (logf r ++ [error_log end_day e])
           (stdout r ++ ["Error logged " +:+ end_day]) (disk r))
      else (Raise e, r)
  end.

Lemma day_body_handled self dates r start_day end_day res d' :
  dates !! Z.to_nat (i r) = Some start_day ->
  dates !! Z.to_nat (i r + 1) = Some end_day ->
  attempt self start_day end_day (rdriver r) = Some (res, d') ->
  day_body self dates r = Some (handled self start_day end_day res (set_rdriver d' r)).
Proof.
  intros Hs He Ha. unfold day_body, bind at 1, Py.get. rewrite Hs, He.
  unfold bind at 1, try, with_driver, zoom. rewrite Ha.
  destruct r as [d0 i0 c0 l0 o0 k0]. unfold handled.
  destruct res as [data|e]; [reflexivity|].
  destruct (isinstance e CTimeoutException); [reflexivity|].
  destruct (isinstance e CWebDriverException).
  - unfold bind, modify, Py.get, set_err_counter, set_rdriver, print. cbn.
    destruct (5 <=? c0 + 1); reflexivity.
  - destruct (isinstance e CException); reflexivity.
Qed.

Lemma attempt_returns self start_day end_day d :
  exists res d', attempt self start_day end_day d = Some (res, d').
Proof.
  unfold attempt, bind, get, wait_for_tag, on_session, zoom, sleep, modify.
  destruct (browser_get _ _) as [[[]|e] b1]; eauto.
  destruct (browser_wait_for_tag _ _ _) as [[[]|e] b2]; eauto.
  cbn. apply PageScraperFacts.scrape_full_page_returns.
Qed.


(** *** The files of the days *)



(** *** One pass of the day loop *)


(** A session fault (a [WebDriverException] that is not a timeout): the
    counter goes up by one and nothing else changes, the same day is tried
    again, and the loop is left when the counter reaches 5. *)
Theorem session_fault_counts_and_retries self dates r start_day end_day e d' :
  dates !! Z.to_nat (i r) = Some start_day ->
  dates !! Z.to_nat (i r + 1) = Some end_day ->
  attempt self start_day end_day (rdriver r) = Some (Raise e, d') ->
  isinstance e CTimeoutException = false ->
  isinstance e CWebDriverException = true ->
  exists c r',
    day_body self dates r = Some (Ok c, r') /\
    err_counter r' = err_counter r + 1 /\
    i r' = i r /\ disk r' = disk r /\ logf r' = logf r /\ rdriver r' = d' /\
    (c = BreakLoop <-> 5 <= err_counter r + 1) /\
    (c = Continue -> stdout r' = stdout r).
Proof.
  intros Hs He Ha Ht Hw.
  rewrite (day_body_handled _ _ _ _ _ _ _ Hs He Ha). unfold handled. rewrite Ht, Hw.
  cbn [err_counter set_rdriver i disk logf stdout rdriver].
  destruct (5 <=? err_counter r + 1) eqn:E.
  - apply Z.leb_le in E. eexists _, _. split; [reflexivity|].
    cbn. repeat split; auto; try discriminate.
  - apply Z.leb_gt in E. eexists _, _. split; [reflexivity|].
    cbn. repeat split; auto; try discriminate; try lia.
Qed.

(** Any other [Exception] of the [try] block, such as the errors
    [scrape_full_page] raises: it is logged with the end date, nothing is
    exported, and the loop goes on with the next day. *)
Theorem other_exception_skips_day self dates r start_day end_day e d' :
  dates !! Z.to_nat (i r) = Some start_day ->
  dates !! Z.to_nat (i r + 1) = Some end_day ->
  attempt self start_day end_day (rdriver r) = Some (Raise e, d') ->
  isinstance e CWebDriverException = false ->
  isinstance e CException = true ->
  exists r',
    day_body self dates r = Some (Ok Continue, r') /\
    i r' = i r + 1 /\
    err_counter r' = err_counter r /\
    disk r' = disk r /\
    logf r' = logf r ++ [error_log end_day e] /\
    stdout r' = stdout r ++ ["Error logged " +:+ end_day].
Proof.
  intros Hs He Ha Hw Hx.
  assert (Ht : isinstance e CTimeoutException = false) by (destruct e; try reflexivity; discriminate Hw).
  rewrite (day_body_handled _ _ _ _ _ _ _ Hs He Ha). unfold handled. rewrite Ht, Hw, Hx.
  eexists. split; [reflexivity|]. repeat split.
Qed.

(** An exception outside [Exception] is not handled: it leaves the loop
    body as it is, with nothing logged, counted or exported. *)
Theorem base_exception_propagates self dates r start_day end_day e d' :
  dates !! Z.to_nat (i r) = Some start_day ->
  dates !! Z.to_nat (i r + 1) = Some end_day ->
  attempt self start_day end_day (rdriver r) = Some (Raise e, d') ->
  isinstance e CException = false ->
  day_body self dates r = Some (Raise e, set_rdriver d' r) /\
  forall fuel, i r < len dates - 1 ->
    day_loop (S fuel) self dates r = Some (Raise e, set_rdriver d' r).
Proof.
  intros Hs He Ha Hx.
  assert (e = KeyboardInterrupt) as -> by (destruct e; try discriminate Hx; reflexivity).
  assert (Hb : day_body self dates r = Some (Raise KeyboardInterrupt, set_rdriver d' r)).
  { rewrite (day_body_handled _ _ _ _ _ _ _ Hs He Ha). reflexivity. }
  split; [exact Hb|].
  intros fuel Hi. cbn [day_loop]. unfold bind at 1, Py.get.
  apply Z.ltb_lt in Hi. rewrite Hi. unfold bind. rewrite Hb. reflexivity.
Qed.



(** *** The day loop *)

Lemma days_in_range (dates : list string) (k : Z) :
  0 <= k -> k < len dates - 1 ->
  exists start_day end_day,
    dates !! Z.to_nat k = Some start_day /\ dates !! Z.to_nat (k + 1) = Some end_day /\
    dates !! S (Z.to_nat k) = Some end_day.
Proof.
  intros Hk Hlen. unfold len in Hlen.
  destruct (lookup_lt_is_Some_2 dates (Z.to_nat k)) as [s Hs]; [lia|].
  destruct (lookup_lt_is_Some_2 dates (S (Z.to_nat k))) as [e He]; [lia|].
  exists s, e. split; [exact Hs|]. split; [|exact He].
  replace (Z.to_nat (k + 1)) with (S (Z.to_nat k)) by lia. exact He.
Qed.

Lemma day_body_step self dates r :
  0 <= i r -> i r < len dates - 1 ->
  exists start_day end_day res d',
    dates !! Z.to_nat (i r) = Some start_day /\
    dates !! S (Z.to_nat (i r)) = Some end_day /\
    attempt self start_day end_day (rdriver r) = Some (res, d') /\
    day_body self dates r = Some (handled self start_day end_day res (set_rdriver d' r)).
Proof.
  intros Hi Hlen.
  destruct (days_in_range dates (i r) Hi Hlen) as (s & e & Hs & He & He').
  destruct (attempt_returns self s e (rdriver r)) as (res & d' & Ha).
  exists s, e, res, d'. split; [exact Hs|]. split; [exact He'|]. split; [exact Ha|].
  apply day_body_handled; assumption.
Qed.

Lemma day_loop_S fuel self dates r :
  day_loop (S fuel) self dates r =
  if i r <? len dates - 1 then
    match day_body self dates r with
    | None => None
    | Some (Ok Continue, r') => day_loop fuel self dates r'
    | Some (Ok BreakLoop, r') => Some (Ok tt, r')
    | Some (Raise e, r') => Some (Raise e, r')
    end
  else Some (Ok tt, r).
Proof.
  cbn [day_loop]. unfold bind at 1, Py.get.
  destruct (i r <? len dates - 1); [|reflexivity].
  unfold bind. destruct (day_body self dates r) as [[[[]|e] r']|]; reflexivity.
Qed.

(** An invariant of the passes is an invariant of the loop. *)
Lemma day_loop_invariant (Inv : Run B -> Prop) self dates :
  (forall r, Inv r -> 0 <= i r) ->
  (forall r start_day end_day res d',
     Inv r ->
     dates !! Z.to_nat (i r) = Some start_day ->
     dates !! S (Z.to_nat (i r)) = Some end_day ->
     attempt self start_day end_day (rdriver r) = Some (res, d') ->
     Inv (handled self start_day end_day res (set_rdriver d' r)).2) ->
  forall fuel r res r',
    Inv r -> day_loop fuel self dates r = Some (res, r') -> Inv r'.
Proof.
  intros Hpos Hstep. induction fuel as [|fuel IH]; intros r res r' Hr Hrun;
    [discriminate|].
  rewrite day_loop_S in Hrun.
  destruct (i r <? len dates - 1) eqn:Hi; [|injection Hrun as _ <-; exact Hr].
  apply Z.ltb_lt in Hi.
  destruct (day_body_step self dates r (Hpos r Hr) Hi)
    as (s & e & res1 & d1 & Hs & He & Ha & Hb).
  specialize (Hstep r s e res1 d1 Hr Hs He Ha).
  rewrite Hb in Hrun.
  destruct (handled self s e res1 (set_rdriver d1 r)) as [[[]|x] r1]; cbn [snd] in Hstep.
  - exact (IH r1 res r' Hstep Hrun).
  - injection Hrun as _ <-. exact Hstep.
  - injection Hrun as _ <-. exact Hstep.
Qed.

(** What a pass does to the day index and to the fault counter. *)
Lemma handled_progress self start_day end_day res r :
  let out := handled self start_day end_day res r in
  match out.1 with
  | Ok Continue =>
      (i out.2 = i r + 1 /\ err_counter out.2 = err_counter r) \/
      (i out.2 = i r /\ err_counter out.2 = err_counter r + 1 /\ err_counter r + 1 < 5)
  | Ok BreakLoop =>
      i out.2 = i r /\ err_counter out.2 = err_counter r + 1 /\ 5 <= err_counter r + 1
  | Raise _ => i out.2 = i r /\ err_counter out.2 = err_counter r
  end.
Proof.
  unfold handled, exported. destruct res as [data|e]; cbn [fst snd i err_counter];
    [left; split; reflexivity|].
  destruct (isinstance e CTimeoutException); cbn [fst snd i err_counter];
    [left; split; reflexivity|].
  destruct (isinstance e CWebDriverException).
  - destruct (5 <=? err_counter r + 1) eqn:E; cbn [fst snd i err_counter].
    + apply Z.leb_le in E. repeat split. exact E.
    + apply Z.leb_gt in E. right. repeat split. exact E.
  - destruct (isinstance e CException); cbn [fst snd i err_counter];
      [left|]; split; reflexivity.
Qed.

Lemma day_loop_returns self dates fuel r :
  0 <= i r -> 0 <= err_counter r ->
  Z.max 0 (len dates - 1 - i r) + Z.max 0 (4 - err_counter r) + 1 <= Z.of_nat fuel ->
  exists res r', day_loop fuel self dates r = Some (res, r').
Proof.
  revert r. induction fuel as [|fuel IH]; intros r Hi Hc Hfuel; [lia|].
  rewrite day_loop_S.
  destruct (i r <? len dates - 1) eqn:Hlt; [|eauto].
  apply Z.ltb_lt in Hlt.
  destruct (day_body_step self dates r Hi Hlt) as (s & e & res & d' & _ & _ & _ & ->).
  pose proof (handled_progress self s e res (set_rdriver d' r)) as Hp. cbv zeta in Hp.
  destruct (handled self s e res (set_rdriver d' r)) as [[[]|x] r1];
    cbn [fst snd set_rdriver i err_counter] in Hp; eauto.
  apply IH; destruct Hp as [[Hi1 Hc1]|(Hi1 & Hc1 & Hlt5)]; lia.
Qed.

(** [run_scraper] returns or raises on every browser and for every date
    range, and when it returns the last call it made closed the browser. *)
Theorem run_scraper_returns self r :
  exists res r',
    run_scraper self r = Some (res, r') /\
    (res = Ok tt ->
     exists b, session (rdriver r') = browser_quit b).
Proof.
  unfold run_scraper. destruct (date_rng _ _) as [dates|].
  2: { eexists _, _. split; [reflexivity|discriminate]. }
  unfold bind at 1, modify. unfold bind at 1. unfold bind at 1.
  destruct (day_loop_returns self dates (day_fuel dates)
              (set_err_counter 0 (set_i 0 r))) as (res & r1 & ->).
  { cbn. lia. } { cbn. lia. }
  { cbn [set_err_counter set_i i err_counter]. unfold day_fuel, len.
    rewrite Nat2Z.inj_add. pose proof (Nat2Z.is_nonneg (length dates)). lia. }
  destruct res as [[]|e].
  - eexists _, _. split; [reflexivity|]. intros _. cbn. eauto.
  - eexists _, _. split; [reflexivity|discriminate].
Qed.






(** *** The whole run *)

Lemma run_scraper_unfold self r dates :
  date_rng (date_start self) (date_end self) = Some dates ->
  run_scraper self r =
  match day_loop (day_fuel dates) self dates (set_err_counter 0 (set_i 0 r)) with
  | None => None
  | Some (Raise e, r1) => Some (Raise e, r1)
  | Some (Ok _, r1) =>
      Some (Ok tt, set_rdriver (mk_Driver (browser_quit (session (rdriver r1)))
                                  (scripts (rdriver r1))) r1)
  end.
Proof.
  intros Hd. unfold run_scraper. rewrite Hd.
  unfold bind at 1, modify. unfold bind at 1. unfold bind at 1.
  destruct (day_loop _ _ _ _) as [[[[]|e] r1]|]; reflexivity.
Qed.




End WithBrowser.

(** *** The session and [quit] *)

Section Session.
Context {B : Type} `{Browser B}.
Variable P : B -> Prop.

(** A property of the session that every call but [quit] keeps. *)
Definition kept_by_calls : Prop :=
  (forall url b, P b -> P (browser_get url b).2) /\
  (forall tag t b, P b -> P (browser_wait_for_tag tag t b).2) /\
  (forall css b, P b -> P (browser_find_elements_by_css_selector css b).2) /\
  (forall js b, P b -> P (browser_execute_script js b).2) /\
  (forall ms b, P b -> P (browser_sleep ms b)).

Hypothesis HP : kept_by_calls.

(** A computation on the driver that keeps the property. *)
Definition keeps {A} (m : M (Driver B) A) : Prop :=
  forall d r d', P (session d) -> m d = Some (r, d') -> P (session d').

Lemma keeps_bind {A C} (m : M (Driver B) A) (k : A -> M (Driver B) C) :
  keeps m -> (forall a, keeps (k a)) -> keeps (bind m k).
Proof.
  intros Hm Hk d r d' Hd. unfold bind.
  destruct (m d) as [[[a|e] d1]|] eqn:Hmd; [|intros [= _ <-]|discriminate].
  - intros Hrun. exact (Hk a d1 r d' (Hm _ _ _ Hd Hmd) Hrun).
  - exact (Hm _ _ _ Hd Hmd).
Qed.

Lemma keeps_ret {A} (a : A) : keeps (ret a).
Proof. intros d r d' Hd [= _ <-]. exact Hd. Qed.

Lemma keeps_raise {A} e : keeps (@raise _ A e).
Proof. intros d r d' Hd [= _ <-]. exact Hd. Qed.

Lemma keeps_execute_script js : keeps (execute_script js).
Proof.
  intros d r d' Hd. rewrite PageScraperFacts.execute_script_unfold. intros [= _ <-].
  cbn [session]. apply HP, Hd.
Qed.

Lemma keeps_find css : keeps (find_elements_by_css_selector css).
Proof.
  intros d r d' Hd. rewrite PageScraperFacts.find_elements_unfold. intros [= _ <-].
  cbn [session]. apply HP, Hd.
Qed.

Lemma keeps_sleep ms : keeps (sleep ms).
Proof.
  intros d r d' Hd. unfold sleep, modify. intros [= _ <-].
  cbn [session]. apply HP, Hd.
Qed.

Lemma keeps_get url : keeps (Selenium.get url).
Proof.
  intros d r d' Hd. unfold Selenium.get, on_session, zoom.
  pose proof (proj1 HP url _ Hd) as Hb.
  destruct (browser_get url (session d)) as [r0 b]. intros [= _ <-]. exact Hb.
Qed.

Lemma keeps_wait tag t : keeps (wait_for_tag tag t).
Proof.
  intros d r d' Hd. unfold wait_for_tag, on_session, zoom.
  pose proof (proj1 (proj2 HP) tag t _ Hd) as Hb.
  destruct (browser_wait_for_tag tag t (session d)) as [r0 b]. intros [= _ <-]. exact Hb.
Qed.

Lemma keeps_scrape_visible_data css text_ scroll :
  keeps (scrape_visible_data css text_ scroll).
Proof.
  unfold scrape_visible_data. apply keeps_bind; [apply keeps_find|].
  intros els. destruct scroll; [|apply keeps_ret].
  destruct (last els) as [e|]; [|apply keeps_raise].
  destruct (location e). apply keeps_bind; [apply keeps_execute_script|].
  intros _. apply keeps_ret.
Qed.

Lemma keeps_sample : keeps sample.
Proof.
  unfold sample.
  apply keeps_bind; [apply keeps_execute_script|intros _].
  apply keeps_bind; [apply keeps_sleep|intros _].
  apply keeps_bind; [apply keeps_scrape_visible_data|intros dts].
  apply keeps_bind; [apply keeps_scrape_visible_data|intros tws].
  apply keeps_ret.
Qed.

Lemma loop_body_keeps s r s' :
  P (session (driver s)) -> loop_body s = Some (r, s') -> P (session (driver s')).
Proof.
  intros Hs. rewrite PageScraperFacts.loop_body_unfold.
  destruct (sample (driver s)) as [[[[dts tws]|e] d']|] eqn:Hsample; try discriminate.
  2: { intros [= _ <-]. exact (keeps_sample _ _ _ Hs Hsample). }
  pose proof (keeps_sample _ _ _ Hs Hsample) as Hd'.
  rewrite PageScraperFacts.account_unfold. cbv zeta.
  destruct (len tws =? len dts); [|intros [= _ <-]; exact Hd'].
  unfold PageScraperFacts.tail.
  cbn [driver set_driver set_full_tweets set_break_count set_num_scrolls set_num_tweets
       full_tweets num_tweets break_count num_scrolls].
  destruct (num_tweets s =? _).
  - destruct (3 <=? _); [intros [= _ <-]; exact Hd'|].
    destruct (execute_script scroll_bottom_js d') as [[[[]|e] d'']|] eqn:Hex;
      try discriminate;
      pose proof (keeps_execute_script _ _ _ _ Hd' Hex) as Hd'';
      [|intros [= _ <-]; exact Hd''].
    cbn [num_scrolls]. destruct (3200 <? _); intros [= _ <-]; exact Hd''.
  - destruct (3200 <? _); intros [= _ <-]; exact Hd'.
Qed.

Lemma scrape_loop_keeps fuel s r s' :
  P (session (driver s)) -> scrape_loop fuel s = Some (r, s') -> P (session (driver s')).
Proof.
  revert s. induction fuel as [|fuel IH]; intros s Hs; [discriminate|].
  cbn [scrape_loop]. unfold bind at 1.
  destruct (loop_body s) as [[[[]|e] s1]|] eqn:Hbody; try discriminate;
    pose proof (loop_body_keeps _ _ _ Hs Hbody) as Hs1.
  - apply IH, Hs1.
  - intros [= _ <-]. exact Hs1.
  - intros [= _ <-]. exact Hs1.
Qed.

Lemma keeps_scrape_full_page : keeps scrape_full_page.
Proof.
  intros d r d' Hd. unfold scrape_full_page.
  destruct (scrape_loop max_passes (enter d)) as [[r1 s1]|] eqn:Hloop; [|discriminate].
  intros [= _ <-]. exact (scrape_loop_keeps max_passes (enter d) r1 s1 Hd Hloop).
Qed.

Lemma keeps_attempt self start_day end_day : keeps (attempt self start_day end_day).
Proof.
  unfold attempt.
  apply keeps_bind; [apply keeps_get|intros _].
  apply keeps_bind; [apply keeps_wait|intros _].
  apply keeps_bind; [apply keeps_sleep|intros _].
  apply keeps_scrape_full_page.
Qed.

Lemma handled_keeps self start_day end_day res r :
  P (session (rdriver r)) ->
  P (session (rdriver (handled self start_day end_day res r).2)).
Proof.
  intros Hr. unfold handled, exported.
  destruct res as [data|e]; cbn [snd rdriver session]; [apply HP, Hr|].
  destruct (isinstance e CTimeoutException); cbn [snd rdriver session]; [apply HP, Hr|].
  destruct (isinstance e CWebDriverException).
  - destruct (5 <=? _); exact Hr.
  - destruct (isinstance e CException); exact Hr.
Qed.

(** [driver.quit()] is the last call of a run that returns, and a run that
    an exception leaves never makes it: whatever the other calls keep true
    of the session, such as being open, is still true then. *)
Theorem quit_only_when_run_returns self r res r' :
  P (session (rdriver r)) ->
  run_scraper self r = Some (res, r') ->
  match res with
  | Ok _ => exists b, P b /\ session (rdriver r') = browser_quit b
  | Raise _ => P (session (rdriver r'))
  end.
Proof.
  intros Hr Hrun. unfold run_scraper in Hrun.
  destruct (date_rng _ _) as [dates|] eqn:Hd.
  2: { injection Hrun as <- <-. exact Hr. }
  fold (run_scraper self) in Hrun. 
  assert (Hrun' : run_scraper self r = Some (res, r')).
  { unfold run_scraper. rewrite Hd. exact Hrun. }
  clear Hrun. rewrite (run_scraper_unfold _ _ _ Hd) in Hrun'.
  destruct (day_loop _ _ _ _) as [[out r1]|] eqn:Hloop; [|discriminate].
  assert (Hinv : 0 <= i r1 /\ P (session (rdriver r1))).
  { apply (day_loop_invariant (fun x => 0 <= i x /\ P (session (rdriver x))) self dates)
      with (fuel := day_fuel dates) (r := set_err_counter 0 (set_i 0 r)) (res := out);
      [tauto| |split; [cbn; lia|exact Hr]|exact Hloop].
    intros x s e res1 d1 [Hix Hx] _ _ Ha. split.
    - pose proof (handled_progress self s e res1 (set_rdriver d1 x)) as Hp.
      cbv zeta in Hp.
      destruct (handled self s e res1 (set_rdriver d1 x)) as [[[]|] x1];
        cbn [fst snd set_rdriver i] in *;
        [destruct Hp as [[-> _]|[-> _]]|destruct Hp as [-> _]..]; lia.
    - apply handled_keeps. cbn [set_rdriver rdriver].
      exact (keeps_attempt _ _ _ _ _ _ Hx Ha). }
  destruct Hinv as [_ Hp1].
  destruct out as [[]|e]; injection Hrun' as <- <-; [|exact Hp1].
  exists (session (rdriver r1)). split; [exact Hp1|reflexivity].
Qed.

End Session.

(** *** Runs on the scripted browser *)

Definition bitcoin : TweetScraper :=
  mk_TweetScraper "chromedriver" (mk_datetime 2022 1 1) (mk_datetime 2022 1 3)
    "Bitcoin" "BTC" 0 0 0 "top" "en".

Definition three_days : list string := ["2022-01-01"; "2022-01-02"; "2022-01-03"].

Definition at_start (vs : list Sim.Visit) : Run Sim.Sim :=
  mk_Run (Sim.fresh vs) 0 0 [] [] (mk_Disk ∅ ∅).

Definition gm_page : Sim.Visit :=
  Sim.Page [Sim.frame_of [("2022-01-01T10:00:00.000Z", "gm")]].


Lemma session_fault_counts_and_retries_witness :
  exists r',
    day_body bitcoin three_days
      (at_start [Sim.Fault (WebDriverException "chrome not reachable")])
    = Some (Ok Continue, r') /\
    err_counter r' = 1 /\ i r' = 0.
Proof.
  assert (Hatt : attempt bitcoin "2022-01-01" "2022-01-02"
                   (rdriver (at_start [Sim.Fault (WebDriverException "chrome not reachable")]))
                 = Some (Raise (WebDriverException "chrome not reachable"),
                         mk_Driver (Sim.mk_Sim [] [] false) []))
    by (vm_compute; reflexivity).
  destruct (session_fault_counts_and_retries bitcoin three_days
              (at_start [Sim.Fault (WebDriverException "chrome not reachable")])
              "2022-01-01" "2022-01-02" _ _ eq_refl eq_refl Hatt eq_refl eq_refl)
    as (c & r' & Hbody & Hc & Hi & _ & _ & _ & Hbreak & _).
  exists r'. split; [|split; [exact Hc|exact Hi]].
  destruct c; [exact Hbody|].
  exfalso. destruct Hbreak as [Hbreak _]. specialize (Hbreak eq_refl).
  cbn in Hbreak. lia.
Defined.

Lemma other_exception_skips_day_witness :
  exists r',
    day_body bitcoin three_days (at_start [Sim.Page [Sim.mk_Frame
      [mk_WebElement "2022-01-01T10:00:00.000Z" "" (0, 0)] []]])
    = Some (Ok Continue, r') /\
    i r' = 1 /\ files (disk r') = ∅ /\
    logf r' = [NL +:+ "End Date: 2022-01-02. Error: 'list index out of range'"].
Proof.
  set (r0 := at_start [Sim.Page [Sim.mk_Frame
      [mk_WebElement "2022-01-01T10:00:00.000Z" "" (0, 0)] []]]).
  assert (Ha : fst <$> attempt bitcoin "2022-01-01" "2022-01-02" (rdriver r0)
               = Some (Raise (IndexError "list index out of range")))
    by (vm_compute; reflexivity).
  destruct (attempt bitcoin "2022-01-01" "2022-01-02" (rdriver r0))
    as [[res d']|] eqn:Hatt; [|discriminate Ha].
  injection Ha as ->.
  destruct (other_exception_skips_day bitcoin three_days r0
              "2022-01-01" "2022-01-02" _ d' eq_refl eq_refl Hatt eq_refl eq_refl)
    as (r' & Hbody & Hi & _ & Hdisk & Hlog & _).
  exists r'. split; [exact Hbody|]. split; [exact Hi|].
  split; [rewrite Hdisk; reflexivity|exact Hlog].
Defined.

Lemma base_exception_propagates_witness :
  day_loop 1 bitcoin three_days (at_start [Sim.Fault KeyboardInterrupt; gm_page])
  = Some (Raise KeyboardInterrupt,
          mk_Run (mk_Driver (Sim.mk_Sim [gm_page] [] false) []) 0 0 [] [] (mk_Disk ∅ ∅)).
Proof.
  assert (Hatt : attempt bitcoin "2022-01-01" "2022-01-02"
                   (rdriver (at_start [Sim.Fault KeyboardInterrupt; gm_page]))
                 = Some (Raise KeyboardInterrupt,
                         mk_Driver (Sim.mk_Sim [gm_page] [] false) []))
    by (vm_compute; reflexivity).
  apply (base_exception_propagates bitcoin three_days
           (at_start [Sim.Fault KeyboardInterrupt; gm_page])
           "2022-01-01" "2022-01-02" _ _ eq_refl eq_refl Hatt eq_refl).
  vm_compute. reflexivity.
Defined.







Lemma sim_open_kept : kept_by_calls (fun b => Sim.closed b = false).
Proof.
  repeat split.
  - intros url b Hb. cbn. unfold Sim.sim_get.
    destruct (Sim.visits b) as [|[e|fs] vs]; exact Hb.
  - intros tag t b Hb. cbn. unfold Sim.sim_wait_for_tag.
    destruct (Sim.times (Sim.shown b)); exact Hb.
  - intros css b Hb. cbn. unfold Sim.sim_find.
    destruct (String.eqb css time_css); [exact Hb|].
    destruct (String.eqb css tweet_css); exact Hb.
  - intros js b Hb. cbn. unfold Sim.sim_execute_script.
    destruct (_ || _); [exact Hb|].
    destruct (Sim.frames b) as [|f [|f' fs]]; exact Hb.
  - intros ms b Hb. exact Hb.
Qed.

Lemma quit_only_when_run_returns_witness :
  exists r',
    run_scraper bitcoin (at_start [Sim.Fault KeyboardInterrupt; gm_page])
    = Some (Raise KeyboardInterrupt, r') /\
    Sim.closed (session (rdriver r')) = false.
Proof.
  assert (Hc : fst <$> run_scraper bitcoin (at_start [Sim.Fault KeyboardInterrupt; gm_page])
               = Some (Raise KeyboardInterrupt)) by (vm_compute; reflexivity).
  destruct (run_scraper bitcoin (at_start [Sim.Fault KeyboardInterrupt; gm_page]))
    as [[res r']|] eqn:Hrun; [|discriminate Hc].
  injection Hc as ->. exists r'. split; [reflexivity|].
  exact (quit_only_when_run_returns (fun b => Sim.closed b = false) sim_open_kept
           bitcoin (at_start [Sim.Fault KeyboardInterrupt; gm_page])
           (Raise KeyboardInterrupt) r' eq_refl Hrun).
Defined.

End OrchestratorFacts.


(** ** The command line *)

Module CliFacts.

Import Calendar Scraper Orchestrator Cli.

Section WithBrowser.
Context {B : Type} `{Browser B}.


End WithBrowser.




End CliFacts.
